(** * EDB console: a shallow embedding of [edb.py]

    [edb.py] is the line-oriented front end of the Energy-interference-free
    Debugger: it reads command lines, tokenises them, dispatches each to a
    [cmd_*] function and renders what the debug engine ([pyedb.edb]) returns.

    The console is stateful Python: it prints, writes files, mutates the
    globals [active_mode] and [monitor], raises and catches exceptions and
    blocks on the engine.  It is embedded as a state-and-exception monad over
    a [world] record.  The engine itself is not part of the file; every call
    into it (and into [time.sleep]) is answered from a replay script of
    replies held in the world, and every call is recorded in a call log.

    Conventions:
    - Python objects are the constructors of [value]; a field that may be
      [None] is an [option].
    - Strings are byte strings; the string methods are those of the ASCII
      range.
    - Floats are abstract: conversions, subtraction and formatting come from
      a [Runtime] instance, as do the [repr] of engine objects and the text
      of a traceback.
    - The shared enumeration tables of the engine come from a
      [HostCommHeader] instance.
    - The command history ([readline], [atexit]) is left out. *)

From Stdlib Require Import ZArith String Ascii List Bool Lia.
From Stdlib Require DecimalString HexadecimalString.
From stdpp Require Import base strings gmap list.

Local Open Scope Z_scope.

(** ** Python built-ins used by the console *)

Module Py.

(** Exceptions.  [KeyboardInterrupt] and [SystemExit] derive from
    [BaseException] only; every other class derives from [Exception].  For
    the built-in error classes only the class is modelled, not the message. *)
Inductive exn :=
| KeyboardInterrupt
| SystemExit
| Exception (msg : string)
| TypeError
| ValueError
| KeyError
| IndexError
| AttributeError
| OSError
| EngineError (cls : string).

(** [isinstance(e, Exception)], the test made by [except Exception]. *)
Definition is_Exception (e : exn) : bool :=
  match e with
  | KeyboardInterrupt | SystemExit => false
  | _ => true
  end.

Definition class_name (e : exn) : string :=
  match e with
  | KeyboardInterrupt => "KeyboardInterrupt"
  | SystemExit => "SystemExit"
  | Exception _ => "Exception"
  | TypeError => "TypeError"
  | ValueError => "ValueError"
  | KeyError => "KeyError"
  | IndexError => "IndexError"
  | AttributeError => "AttributeError"
  | OSError => "OSError"
  | EngineError cls => cls
  end.

(** [str(type(e))] *)
Definition type_str (e : exn) : string :=
  "<class '" +:+ class_name e +:+ "'>".

(** *** Strings (ASCII) *)

Definition newline : ascii := "010"%char.

(** [c.isspace()] on the ASCII range *)
Definition isspace (c : ascii) : bool :=
  let n := nat_of_ascii c in
  ((9 <=? n) && (n <=? 13) || (28 <=? n) && (n <=? 32))%nat.

Fixpoint lstrip (s : string) : string :=
  match s with
  | String c s' => if isspace c then lstrip s' else s
  | EmptyString => EmptyString
  end.

(** [s.strip()] *)
Definition strip (s : string) : string :=
  String.rev (lstrip (String.rev (lstrip s))).

(** [s.split(sep)] for a one-character separator: every occurrence cuts,
    empty pieces are kept. *)
Fixpoint split_on (sep : ascii) (s : string) : list string :=
  match s with
  | EmptyString => [EmptyString]
  | String c s' =>
      if Ascii.eqb c sep then EmptyString :: split_on sep s'
      else match split_on sep s' with
           | w :: ws => String c w :: ws
           | [] => [String c EmptyString]
           end
  end.

(** [s.split()]: cut at runs of whitespace, no empty pieces. *)
Fixpoint split_ws_go (cur : string) (s : string) : list string :=
  let flush := match cur with EmptyString => [] | _ => [String.rev cur] end in
  match s with
  | EmptyString => flush
  | String c s' =>
      if isspace c then flush ++ split_ws_go EmptyString s'
      else split_ws_go (String c cur) s'
  end.

Definition split (s : string) : list string := split_ws_go EmptyString s.

(** [s.upper()] *)
Definition upper_char (c : ascii) : ascii :=
  let n := nat_of_ascii c in
  if ((97 <=? n) && (n <=? 122))%nat then ascii_of_nat (n - 32) else c.

Fixpoint upper (s : string) : string :=
  match s with
  | EmptyString => EmptyString
  | String c s' => String (upper_char c) (upper s')
  end.

(** [s.startswith(p)] *)
Definition startswith (s p : string) : bool := String.prefix p s.

(** [s[-1]]; [None] stands for [IndexError]. *)
Fixpoint last_char (s : string) : option ascii :=
  match s with
  | EmptyString => None
  | String c EmptyString => Some c
  | String _ s' => last_char s'
  end.

Fixpoint join (sep : string) (l : list string) : string :=
  match l with
  | [] => ""
  | [x] => x
  | x :: l' => x +:+ sep +:+ join sep l'
  end.

(** *** Integers *)

(** ["%d" % n], ["%u" % n], [repr(n)] *)
Definition fmt_d (n : Z) : string :=
  DecimalString.NilZero.string_of_int (Z.to_int n).

Fixpoint zeros (n : nat) : string :=
  match n with
  | O => ""
  | S n' => String "0" (zeros n')
  end.

(** ["%0<width>x" % n]: the sign counts towards the width. *)
Definition fmt_x (width : nat) (n : Z) : string :=
  let digits :=
    HexadecimalString.NilZero.string_of_uint (N.to_hex_uint (Z.to_N (Z.abs n))) in
  let sign := if n <? 0 then "-" else "" in
  sign +:+ zeros (width - String.length sign - String.length digits) +:+ digits.

Definition digit_val (base : Z) (c : ascii) : option Z :=
  let n := Z.of_nat (nat_of_ascii c) in
  let v :=
    if (48 <=? n) && (n <=? 57) then Some (n - 48)
    else if (97 <=? n) && (n <=? 102) then Some (n - 87)
    else if (65 <=? n) && (n <=? 70) then Some (n - 55)
    else None in
  match v with
  | Some d => if d <? base then Some d else None
  | None => None
  end.

(** Digits with single underscores between them. [after_digit] tells if the
    previous character was a digit (an underscore may follow only a digit and
    must be followed by one). *)
Fixpoint digits_go (base acc : Z) (after_digit : bool) (s : string) : option Z :=
  match s with
  | EmptyString => if after_digit then Some acc else None
  | String c s' =>
      if Ascii.eqb c "_" then
        if after_digit then digits_go base acc false s' else None
      else match digit_val base c with
           | Some d => digits_go base (acc * base + d) true s'
           | None => None
           end
  end.

Definition signed (s : string) : bool * string :=
  match s with
  | String "-" s' => (true, s')
  | String "+" s' => (false, s')
  | _ => (false, s)
  end.

Definition apply_sign (neg : bool) (n : Z) : Z := if neg then - n else n.

(** [int(s)]; [None] stands for [ValueError]. *)
Definition int10 (s : string) : option Z :=
  let '(neg, body) := signed (strip s) in
  apply_sign neg <$> digits_go 10 0 false body.

(** [int(s, 16)]: an optional [0x] prefix, after which one underscore may
    precede the digits. *)
Definition int16 (s : string) : option Z :=
  let '(neg, body) := signed (strip s) in
  let digits :=
    match body with
    | String "0" (String x rest) =>
        if Ascii.eqb x "x" || Ascii.eqb x "X"
        then digits_go 16 0 false
               match rest with String "_" rest' => rest' | _ => rest end
        else digits_go 16 0 false body
    | _ => digits_go 16 0 false body
    end in
  apply_sign neg <$> digits.

(** [repr(s)] *)
Definition hex_digit (n : nat) : ascii :=
  match String.get n "0123456789abcdef" with
  | Some c => c
  | None => "0"%char
  end.

Definition repr_char (quote : ascii) (c : ascii) : string :=
  let n := nat_of_ascii c in
  if Ascii.eqb c "\" then "\\"
  else if Ascii.eqb c quote then String "\" (String c "")
  else if Ascii.eqb c newline then "\n"
  else if (n =? 13)%nat then "\r"
  else if (n =? 9)%nat then "\t"
  else if ((n <? 32) || (n =? 127))%nat
       then String "\" (String "x" (String (hex_digit (n / 16)) (String (hex_digit (n mod 16)) "")))
  else String c "".

Fixpoint repr_body (quote : ascii) (s : string) : string :=
  match s with
  | EmptyString => ""
  | String c s' => repr_char quote c +:+ repr_body quote s'
  end.

Fixpoint contains (c : ascii) (s : string) : bool :=
  match s with
  | EmptyString => false
  | String c' s' => Ascii.eqb c c' || contains c s'
  end.

Definition double_quote : ascii := "034"%char.

Definition repr_str (s : string) : string :=
  let quote : ascii :=
    if contains "'" s && negb (contains double_quote s) then double_quote
    else "'"%char in
  String quote (repr_body quote s) +:+ String quote "".

End Py.

Import Py.

(** ** Python values

    The objects that reach the console: plain data, the four event classes
    of the engine, the engine handle and file objects.  [isinstance] is a
    match on the constructor.  [F] is the type of Python floats. *)

Inductive sink :=
| Stdout
| File (path : string).

#[warnings="-register-all"]
Inductive value {F : Type} :=
| VNone
| VBool (b : bool)
| VInt (n : Z)
| VFloat (x : F)
| VStr (s : string)
| VTuple (items : list value)
| VList (items : list value)
| InterruptContext (type : string) (id : Z) (saved_vcap : option F)
| WatchpointEvent (id : Z) (timestamp : F) (vcap : option F)
| StdIOData (timestamp : F) (string : String.string)
| EnergyProfile (timestamp : F) (profile : value)
| EDB (device : string) (uart_log_fname : option string)
| VFile (f : sink).
Arguments value : clear implicits.

(** The keys of the shared enumeration tables
    [edb.host_comm_header.enums], in iteration order.  The tables belong to
    the engine and are taken as given. *)
Class HostCommHeader := {
  BREAKPOINT_TYPE : list string;
  INTERRUPT_SOURCE : list string
}.

(** What the console needs from the Python runtime and cannot be read off
    [edb.py]: float conversions, the [repr] of objects whose classes live in
    the engine, and the rendering of a traceback. *)
Class Runtime (F : Type) := {
  float_of_str : string -> option F;  (* float(s), None for ValueError *)
  float_of_int : Z -> F;              (* float(n) *)
  float_sub : F -> F -> F;            (* x - y *)
  float_fixed : nat -> F -> string;   (* "%.<n>f" % x *)
  float_repr : F -> string;           (* repr(x) *)
  object_repr : value F -> string;    (* repr of an event, handle or file *)
  format_exc : exn -> string          (* traceback.format_exc() *)
}.

Section Console.

Context {F : Type} {runtime : Runtime F} {enums : HostCommHeader}.

Local Abbreviation value := (value F).

Fixpoint py_repr (v : value) : string :=
  match v with
  | VNone => "None"
  | VBool true => "True"
  | VBool false => "False"
  | VInt n => fmt_d n
  | VFloat x => float_repr x
  | VStr s => repr_str s
  | VTuple items =>
      match items with
      | [x] => "(" +:+ py_repr x +:+ ",)"
      | _ => "(" +:+ join ", " (map py_repr items) +:+ ")"
      end
  | VList items => "[" +:+ join ", " (map py_repr items) +:+ "]"
  | _ => object_repr v
  end.

(** [str(v)], what [print(v)] shows *)
Definition py_str (v : value) : string :=
  match v with
  | VStr s => s
  | _ => py_repr v
  end.

(** The operand of a single [%f] conversion: a number, or a 1-tuple holding
    one.  [None] stands for [TypeError]. *)
Definition float_operand (v : value) : option F :=
  let scalar (v : value) :=
    match v with
    | VFloat x => Some x
    | VInt n => Some (float_of_int n)
    | VBool b => Some (float_of_int (if b then 1 else 0))
    | _ => None
    end in
  match v with
  | VTuple [v'] => scalar v'
  | _ => scalar v
  end.

(** The operand of a single [%x] conversion. *)
Definition int_operand (v : value) : option Z :=
  let scalar (v : value) :=
    match v with
    | VInt n => Some n
    | VBool b => Some (if b then 1 else 0)
    | _ => None
    end in
  match v with
  | VTuple [v'] => scalar v'
  | _ => scalar v
  end.

(** ** The world and the console monad *)

(** A call that leaves [edb.py]: a method of the engine handle, the [EDB]
    constructor or [time.sleep]. *)
Record call := Call { callee : string; args : list value }.

(** How the outside answers a call.  [Writes data r]: the callee writes
    [data] to the file object it was handed, then goes on as [r]. *)
Inductive reply :=
| Returns (v : value)
| Raises (e : exn)
| Writes (data : string) (r : reply).

Record world := World {
  active_mode : bool;            (* global active_mode *)
  monitor : value;               (* global monitor *)
  CONSOLE_FILE : sink;           (* global CONSOLE_FILE *)
  stdout : string;               (* everything written to sys.stdout *)
  files : gmap string string;    (* contents of the files opened for writing *)
  clock : F;                     (* what time.time() reads *)
  calls : list call;             (* calls made so far, oldest first *)
  script : list reply            (* replies to the calls to come *)
}.

Definition set_active_mode (b : bool) (w : world) : world :=
  World b (monitor w) (CONSOLE_FILE w) (stdout w) (files w) (clock w) (calls w) (script w).
Definition set_monitor (m : value) (w : world) : world :=
  World (active_mode w) m (CONSOLE_FILE w) (stdout w) (files w) (clock w) (calls w) (script w).
Definition set_CONSOLE_FILE (f : sink) (w : world) : world :=
  World (active_mode w) (monitor w) f (stdout w) (files w) (clock w) (calls w) (script w).
Definition set_stdout (s : string) (w : world) : world :=
  World (active_mode w) (monitor w) (CONSOLE_FILE w) s (files w) (clock w) (calls w) (script w).
Definition set_files (fs : gmap string string) (w : world) : world :=
  World (active_mode w) (monitor w) (CONSOLE_FILE w) (stdout w) fs (clock w) (calls w) (script w).
Definition set_engine (cs : list call) (rs : list reply) (w : world) : world :=
  World (active_mode w) (monitor w) (CONSOLE_FILE w) (stdout w) (files w) (clock w) cs rs.

(** A computation returns, raises, or never comes back (it blocks on a call
    that is never answered, or spins). *)
Inductive outcome (A : Type) :=
| Ret (a : A)
| Raise (e : exn)
| Diverge.
Arguments Ret {A} a.
Arguments Raise {A} e.
Arguments Diverge {A}.

Definition M (A : Type) : Type := world -> outcome A * world.

Definition ret {A} (a : A) : M A := fun w => (Ret a, w).
Definition raise {A} (e : exn) : M A := fun w => (Raise e, w).
Definition diverge {A} : M A := fun w => (Diverge, w).
Definition bind {A B} (m : M A) (k : A -> M B) : M B :=
  fun w =>
    match m w with
    | (Ret a, w') => k a w'
    | (Raise e, w') => (Raise e, w')
    | (Diverge, w') => (Diverge, w')
    end.

Notation "'let*' x ':=' m 'in' k" := (bind m (fun x => k))
  (at level 10, x pattern, m at level 100, k at level 200).
Notation "m ';;' k" := (bind m (fun _ => k))
  (at level 100, right associativity).

(** [try: m  except KeyboardInterrupt: pass] *)
Definition except_KeyboardInterrupt (m : M unit) : M unit :=
  fun w =>
    match m w with
    | (Raise KeyboardInterrupt, w') => (Ret tt, w')
    | r => r
    end.

(** An optional Python value turned into a result or an exception. *)
Definition orelse {A} (o : option A) (e : exn) : M A :=
  match o with
  | Some a => ret a
  | None => raise e
  end.

(** [f.write(s)] *)
Definition write (f : sink) (s : string) : M unit :=
  fun w =>
    match f with
    | Stdout => (Ret tt, set_stdout (stdout w +:+ s) w)
    | File path =>
        (Ret tt, set_files (<[path := default "" (files w !! path) +:+ s]> (files w)) w)
    end.

(** [print(s)] and [print(s, end='')] *)
Definition print (s : string) : M unit := write Stdout (s +:+ String newline "").
Definition print_noend (s : string) : M unit := write Stdout s.

(** [open(path, "w")]: the file is created or truncated.  The file store has
    no directories and no permissions, so opening never fails. *)
Definition open_w (path : string) : M sink :=
  fun w => (Ret (File path), set_files (<[path := ""]> (files w)) w).

(** [time.time()] *)
Definition time_time : M F := fun w => (Ret (clock w), w).

(** The callee's writes land in [out] when it was handed a file object. *)
Fixpoint deliver (out : option sink) (r : reply) : M value :=
  match r with
  | Returns v => ret v
  | Raises e => raise e
  | Writes data r' =>
      match out with
      | Some f => write f data ;; deliver out r'
      | None => deliver out r'
      end
  end.

(** A call to the outside: it is logged, and answered by the next reply of
    the script; with no reply left the caller waits for ever. *)
Definition external (out : option sink) (c : call) : M value :=
  fun w =>
    match script w with
    | [] => (Diverge, set_engine (calls w ++ [c]) [] w)
    | r :: rest => deliver out r (set_engine (calls w ++ [c]) rest w)
    end.

(** [mon.name(args)]: an attribute error unless [mon] is an engine handle. *)
Definition invoke (out : option sink) (mon : value) (name : string)
    (args : list value) : M value :=
  match mon with
  | EDB _ _ => external out (Call ("mon." +:+ name) args)
  | _ => raise AttributeError
  end.

Definition nl : string := String newline "".

(** ** The functions of [edb.py] *)

Definition to_int (s : string) : M Z :=
  if startswith s "0x" then orelse (int16 s) ValueError
  else orelse (int10 s) ValueError.

(** [match_keyword]: the loop over [words], with the variable [match] of the
    source as the accumulator [found]. *)
Fixpoint match_keyword_from (found : option string) (part : string)
    (words : list string) : M (option string) :=
  match words with
  | [] => ret found
  | word :: words' =>
      if startswith word part then
        match found with
        | Some _ => raise (Exception ("Ambiguous keyword: " +:+ part))
        | None => match_keyword_from (Some word) part words'
        end
      else match_keyword_from found part words'
  end.

Definition match_keyword (part : string) (words : list string) : M (option string) :=
  match_keyword_from None part words.

Definition print_interrupt_context (context : value) : M unit :=
  match context with
  | InterruptContext type id saved_vcap =>
      print_noend ("Interrupted: " +:+ repr_str type) ;;
      (if String.eqb type "ASSERT" then print_noend ("line: " +:+ fmt_d id)
       else if String.eqb type "BOOT" then ret tt
       else print_noend ("id: " +:+ fmt_d id)) ;;
      match saved_vcap with
      | Some v => print ("Vcap_saved = " +:+ float_fixed 4 v)
      | None => print ""
      end
  | _ => raise AttributeError
  end.

Definition print_watchpoint_event (event : value) : M unit :=
  match event with
  | WatchpointEvent id timestamp vcap =>
      let* v := orelse vcap TypeError in
      print ("Watchpoint: id: " +:+ fmt_d id +:+ " time: " +:+ float_fixed 6 timestamp
             +:+ " s Vcap = " +:+ float_fixed 4 v)
  | _ => raise AttributeError
  end.

Definition init_watchpoint_log (fout : sink) : M unit :=
  write fout ("id,timestamp,vcap" +:+ nl).

Definition log_watchpoint_event (fout : sink) (event : value) : M unit :=
  match event with
  | WatchpointEvent id timestamp vcap =>
      let* v := orelse vcap TypeError in
      write fout (fmt_d id +:+ "," +:+ float_fixed 6 timestamp +:+ ","
                  +:+ float_fixed 4 v +:+ nl)
  | _ => raise AttributeError
  end.

Definition cmd_echo (mon : value) (args : string) : M unit :=
  print args.

Definition cmd_sleep (mon : value) (time_sec : string) : M unit :=
  let* t := orelse (float_of_str time_sec) ValueError in
  external None (Call "time.sleep" [VFloat t]) ;;
  ret tt.

Definition opt_str (o : option string) : value :=
  match o with
  | Some s => VStr s
  | None => VNone
  end.

Definition cmd_attach (mon : value) (device : string) (uart_log_fname : option string)
    : M unit :=
  external None (Call "edb.EDB" [VStr device; opt_str uart_log_fname]) ;;
  fun w => (Ret tt, set_monitor (EDB device uart_log_fname) w).

Definition cmd_detach (mon : value) : M unit :=
  invoke None mon "destroy" [] ;; ret tt.

Definition cmd_power (mon : value) (state : string) : M unit :=
  invoke None mon "cont_power" [VBool (String.eqb state "on")] ;; ret tt.

Definition cmd_sense (mon : value) (channel : string) : M unit :=
  let* v := invoke None mon "sense" [VStr (upper channel)] in
  print (py_str v).

Definition cmd_reset (mon : value) : M unit :=
  invoke None mon "reset_debug_mode_state" [] ;; ret tt.

Definition do_stream (mon : value) (out_file duration_sec : string)
    (streams : list string) (no_parse : bool) : M unit :=
  let* duration_sec :=
    if String.eqb duration_sec "-" then ret VNone
    else let* d := orelse (float_of_str duration_sec) ValueError in ret (VFloat d) in
  let streams := map upper streams in
  let* fp_silent :=
    if String.eqb out_file "-" then ret (Stdout, true)
    else let* fp := open_w out_file in ret (fp, false) in
  let fp := fst fp_silent in
  let silent := snd fp_silent in
  except_KeyboardInterrupt
    (invoke (Some fp) mon "stream"
       [VList (map VStr streams); duration_sec; VFile fp; VBool silent; VBool no_parse] ;;
     ret tt).

Definition cmd_stream (mon : value) (out_file duration_sec : string)
    (streams : list string) : M unit :=
  do_stream mon out_file duration_sec streams false.

Definition cmd_streamnp (mon : value) (out_file duration_sec : string)
    (streams : list string) : M unit :=
  do_stream mon out_file duration_sec streams true.

Definition cmd_charge (mon : value) (target_voltage method : string) : M unit :=
  let* target_voltage := orelse (float_of_str target_voltage) ValueError in
  if String.eqb method "adc" then
    let* vcap := invoke None mon "charge" [VFloat target_voltage] in
    let* v := orelse (float_operand vcap) TypeError in
    print ("Vcap = " +:+ float_fixed 4 v)
  else if String.eqb method "cmp" then
    invoke None mon "charge_cmp" [VFloat target_voltage] ;; ret tt
  else raise (Exception ("Invalid charger method: " +:+ method)).

Definition cmd_discharge (mon : value) (target_voltage method : string) : M unit :=
  let* target_voltage := orelse (float_of_str target_voltage) ValueError in
  if String.eqb method "adc" then
    let* vcap := invoke None mon "discharge" [VFloat target_voltage] in
    let* v := orelse (float_operand vcap) TypeError in
    print ("Vcap = " +:+ float_fixed 4 v)
  else if String.eqb method "cmp" then
    invoke None mon "discharge_cmp" [VFloat target_voltage] ;; ret tt
  else raise (Exception ("Invalid charger method: " +:+ method)).

Definition cmd_int (mon : value) : M unit :=
  except_KeyboardInterrupt
    (let* saved_vcap := invoke None mon "interrupt" [] in
     let* v := orelse (float_operand saved_vcap) TypeError in
     print ("Vcap_saved = " +:+ float_fixed 4 v) ;;
     fun w => (Ret tt, set_active_mode true w)).

Definition cmd_cont (mon : value) : M unit :=
  let* restored_vcap := invoke None mon "exit_debug_mode" [] in
  let* v := orelse (float_operand restored_vcap) TypeError in
  print ("Vcap_restored = " +:+ float_fixed 4 v) ;;
  fun w => (Ret tt, set_active_mode false w).

Definition cmd_ebreak (mon : value) (target_voltage impl : string) : M unit :=
  let* target_voltage := orelse (float_of_str target_voltage) ValueError in
  let* saved_vcap :=
    invoke None mon "break_at_vcap_level" [VFloat target_voltage; VStr (upper impl)] in
  let* v := orelse (float_operand saved_vcap) TypeError in
  print ("Vcap_saved = " +:+ float_fixed 4 v) ;;
  fun w => (Ret tt, set_active_mode true w).

Definition opt_float (o : option string) : M value :=
  match o with
  | Some s => let* x := orelse (float_of_str s) ValueError in ret (VFloat x)
  | None => ret VNone
  end.

Definition cmd_break (mon : value) (type idx op : string) (energy_level : option string)
    : M unit :=
  let* idx := orelse (int10 idx) ValueError in
  let enable := startswith "enable" op in
  let* type := match_keyword (upper type) BREAKPOINT_TYPE in
  let* energy_level := opt_float energy_level in
  invoke None mon "toggle_breakpoint"
    [opt_str type; VInt idx; VBool enable; energy_level] ;;
  ret tt.

Definition cmd_watch (mon : value) (idx op vcap_snapshot : string) : M unit :=
  let* idx := orelse (int10 idx) ValueError in
  let enable := startswith "enable" op in
  let vcap_snapshot := startswith "vcap" vcap_snapshot in
  invoke None mon "toggle_watchpoint" [VInt idx; VBool enable; VBool vcap_snapshot] ;;
  ret tt.

(** The body of the [while True] loop of [cmd_wait]; [true] stands for
    [break]. *)
Definition wait_step (mon : value) (flog : option sink) (start_time : F) : M bool :=
  let* event := invoke None mon "wait" [] in
  match event with
  | InterruptContext _ _ _ =>
      print_interrupt_context event ;;
      (fun w => (Ret tt, set_active_mode true w)) ;;
      ret true
  | WatchpointEvent _ _ _ =>
      print_watchpoint_event event ;;
      match flog with
      | Some flog => log_watchpoint_event flog event
      | None => ret tt
      end ;;
      ret false
  | StdIOData timestamp string =>
      let* console := (fun w => (Ret (CONSOLE_FILE w), w)) in
      write console (float_fixed 3 (float_sub timestamp start_time) +:+ ": ") ;;
      write console string ;;
      let* last := orelse (last_char string) IndexError in
      (if Ascii.eqb last newline then ret tt else write console nl) ;;
      ret false
  | EnergyProfile timestamp profile =>
      print (float_fixed 3 (float_sub timestamp start_time) +:+ ": " +:+ py_repr profile) ;;
      ret false
  | _ => ret false
  end.

(** [while True: body], for a body that makes one outside call per iteration:
    the loop is unfolded once per pending reply; with none left the call of
    the next iteration is never answered. *)
Fixpoint while_True (body : M bool) (pending : list reply) : M unit :=
  let* stop := body in
  if stop : bool then ret tt
  else match pending with
       | [] => diverge
       | _ :: pending' => while_True body pending'
       end.

Definition cmd_wait (mon : value) (log_file : option string) : M unit :=
  let* flog :=
    match log_file with
    | Some log_file =>
        let* flog := open_w log_file in
        init_watchpoint_log flog ;;
        ret (Some flog)
    | None => ret None
    end in
  except_KeyboardInterrupt
    (let* start_time := time_time in
     fun w => while_True (wait_step mon flog start_time) (script w) w).

Definition cmd_intctx (mon : value) (source : string) : M unit :=
  let* source := match_keyword (upper source) INTERRUPT_SOURCE in
  let* int_context := invoke None mon "get_interrupt_context" [opt_str source] in
  print_interrupt_context int_context.

(** [for byte in value: print("0x%02x" % byte, end='')] *)
Fixpoint print_bytes (items : list value) : M unit :=
  match items with
  | [] => ret tt
  | byte :: items' =>
      let* b := orelse (int_operand byte) TypeError in
      print_noend ("0x" +:+ fmt_x 2 b) ;;
      print_bytes items'
  end.

Definition chars (s : string) : list value :=
  map (fun c => VStr (String c "")) (list_ascii_of_string s).

(** The items of an iterable; [None] stands for the [TypeError] of iterating
    over anything else. *)
Definition iterate (v : value) : option (list value) :=
  match v with
  | VTuple items | VList items => Some items
  | VStr s => Some (chars s)
  | _ => None
  end.

Definition cmd_read (mon : value) (addr len : string) : M unit :=
  let* addr := orelse (int16 addr) ValueError in
  let* len := orelse (int10 len) ValueError in
  let* result := invoke None mon "read_mem" [VInt addr; VInt len] in
  let* unpacked := orelse (iterate result) TypeError in
  match unpacked with
  | [addr; data] =>
      let* a := orelse (int_operand addr) TypeError in
      print_noend ("0x" +:+ fmt_x 8 a +:+ ":") ;;
      let* items := orelse (iterate data) TypeError in
      print_bytes items ;;
      print ""
  | _ => raise ValueError
  end.

Fixpoint map_to_int (tokens : list string) : M (list value) :=
  match tokens with
  | [] => ret []
  | t :: tokens' =>
      let* n := to_int t in
      let* ns := map_to_int tokens' in
      ret (VInt n :: ns)
  end.

(** [map] is lazy: the tokens are converted when the engine method walks
    over the values, which the model places at its entry. *)
Definition cmd_write (mon : value) (addr : string) (values : list string) : M unit :=
  let* addr := orelse (int16 addr) ValueError in
  match mon with
  | EDB _ _ =>
      let* values := map_to_int values in
      invoke None mon "write_mem" [VInt addr; VList values] ;; ret tt
  | _ => raise AttributeError
  end.

Definition cmd_pc (mon : value) : M unit :=
  let* pc := invoke None mon "get_pc" [] in
  let* n := orelse (int_operand pc) TypeError in
  print ("0x" +:+ fmt_x 8 n).

Definition cmd_secho (mon : value) (byte : string) : M unit :=
  let* byte := orelse (int16 byte) ValueError in
  let* r := invoke None mon "serial_echo" [VInt byte] in
  let* n := orelse (int_operand r) TypeError in
  print ("0x" +:+ fmt_x 2 n).

Definition cmd_decho (mon : value) (byte : string) : M unit :=
  let* byte := orelse (int16 byte) ValueError in
  let* r := invoke None mon "dma_echo" [VInt byte] in
  let* n := orelse (int_operand r) TypeError in
  print ("0x" +:+ fmt_x 2 n).

Definition cmd_replay (mon : value) (file : string) : M unit :=
  invoke None mon "load_replay_log" [VStr file] ;; ret tt.

Definition cmd_lset (mon : value) (param val : string) : M unit :=
  let* r := invoke None mon "set_local_param" [VStr param; VStr val] in
  print (py_str r).

Definition cmd_lget (mon : value) (param : string) : M unit :=
  let* r := invoke None mon "get_local_param" [VStr param] in
  print (py_str r).

Definition cmd_rset (mon : value) (param val : string) : M unit :=
  let* r := invoke None mon "set_remote_param" [VStr param; VStr val] in
  print (py_str r).

Definition cmd_rget (mon : value) (param : string) : M unit :=
  let* r := invoke None mon "get_remote_param" [VStr param] in
  print (py_str r).

Definition cmd_uart (mon : value) (op : string) : M unit :=
  let enable := startswith "enable" op in
  invoke None mon "enable_target_uart" [VBool enable] ;; ret tt.

Definition cmd_payload (mon : value) (op : string) : M unit :=
  let enable := startswith "enable" op in
  invoke None mon "enable_periodic_payload" [VBool enable] ;; ret tt.

Definition compose_prompt (active_mode : bool) : string :=
  if active_mode then "*> " else "> ".

(** ** The read-eval loop *)

(** What [globals()] holds under a name: a function, with the binding of the
    tokens to its parameters (a [TypeError] when they do not fit), or an
    object that cannot be called. *)
Inductive global :=
| Function (apply : value -> list string -> M unit)
| Object.

Definition globals : gmap string global :=
  list_to_map [
    ("cmd_echo", Function (fun mon a =>
       match a with [args] => cmd_echo mon args | _ => raise TypeError end));
    ("cmd_sleep", Function (fun mon a =>
       match a with [time_sec] => cmd_sleep mon time_sec | _ => raise TypeError end));
    ("cmd_attach", Function (fun mon a =>
       match a with
       | [] => cmd_attach mon "/dev/ttyUSB0" None
       | [device] => cmd_attach mon device None
       | [device; uart_log_fname] => cmd_attach mon device (Some uart_log_fname)
       | _ => raise TypeError
       end));
    ("cmd_detach", Function (fun mon a =>
       match a with [] => cmd_detach mon | _ => raise TypeError end));
    ("cmd_power", Function (fun mon a =>
       match a with [state] => cmd_power mon state | _ => raise TypeError end));
    ("cmd_sense", Function (fun mon a =>
       match a with [channel] => cmd_sense mon channel | _ => raise TypeError end));
    ("cmd_reset", Function (fun mon a =>
       match a with [] => cmd_reset mon | _ => raise TypeError end));
    ("cmd_stream", Function (fun mon a =>
       match a with
       | out_file :: duration_sec :: streams => cmd_stream mon out_file duration_sec streams
       | _ => raise TypeError
       end));
    ("cmd_streamnp", Function (fun mon a =>
       match a with
       | out_file :: duration_sec :: streams => cmd_streamnp mon out_file duration_sec streams
       | _ => raise TypeError
       end));
    ("cmd_charge", Function (fun mon a =>
       match a with
       | [target_voltage] => cmd_charge mon target_voltage "adc"
       | [target_voltage; method] => cmd_charge mon target_voltage method
       | _ => raise TypeError
       end));
    ("cmd_discharge", Function (fun mon a =>
       match a with
       | [target_voltage] => cmd_discharge mon target_voltage "adc"
       | [target_voltage; method] => cmd_discharge mon target_voltage method
       | _ => raise TypeError
       end));
    ("cmd_int", Function (fun mon a =>
       match a with [] => cmd_int mon | _ => raise TypeError end));
    ("cmd_cont", Function (fun mon a =>
       match a with [] => cmd_cont mon | _ => raise TypeError end));
    ("cmd_ebreak", Function (fun mon a =>
       match a with
       | [target_voltage] => cmd_ebreak mon target_voltage "adc"
       | [target_voltage; impl] => cmd_ebreak mon target_voltage impl
       | _ => raise TypeError
       end));
    ("cmd_break", Function (fun mon a =>
       match a with
       | [type; idx; op] => cmd_break mon type idx op None
       | [type; idx; op; energy_level] => cmd_break mon type idx op (Some energy_level)
       | _ => raise TypeError
       end));
    ("cmd_watch", Function (fun mon a =>
       match a with
       | [idx; op] => cmd_watch mon idx op "novcap"
       | [idx; op; vcap_snapshot] => cmd_watch mon idx op vcap_snapshot
       | _ => raise TypeError
       end));
    ("cmd_wait", Function (fun mon a =>
       match a with
       | [] => cmd_wait mon None
       | [log_file] => cmd_wait mon (Some log_file)
       | _ => raise TypeError
       end));
    ("cmd_intctx", Function (fun mon a =>
       match a with
       | [] => cmd_intctx mon "debugger"
       | [source] => cmd_intctx mon source
       | _ => raise TypeError
       end));
    ("cmd_read", Function (fun mon a =>
       match a with [addr; len] => cmd_read mon addr len | _ => raise TypeError end));
    ("cmd_write", Function (fun mon a =>
       match a with addr :: values => cmd_write mon addr values | _ => raise TypeError end));
    ("cmd_pc", Function (fun mon a =>
       match a with [] => cmd_pc mon | _ => raise TypeError end));
    ("cmd_secho", Function (fun mon a =>
       match a with [byte] => cmd_secho mon byte | _ => raise TypeError end));
    ("cmd_decho", Function (fun mon a =>
       match a with [byte] => cmd_decho mon byte | _ => raise TypeError end));
    ("cmd_replay", Function (fun mon a =>
       match a with [file] => cmd_replay mon file | _ => raise TypeError end));
    ("cmd_lset", Function (fun mon a =>
       match a with [param; val] => cmd_lset mon param val | _ => raise TypeError end));
    ("cmd_lget", Function (fun mon a =>
       match a with [param] => cmd_lget mon param | _ => raise TypeError end));
    ("cmd_rset", Function (fun mon a =>
       match a with [param; val] => cmd_rset mon param val | _ => raise TypeError end));
    ("cmd_rget", Function (fun mon a =>
       match a with [param] => cmd_rget mon param | _ => raise TypeError end));
    ("cmd_uart", Function (fun mon a =>
       match a with [op] => cmd_uart mon op | _ => raise TypeError end));
    ("cmd_payload", Function (fun mon a =>
       match a with [op] => cmd_payload mon op | _ => raise TypeError end));
    ("cmd_hist_file", Object);
    ("cmd_lines", Object);
    ("cmd_line", Object)
  ].

(** [glob["cmd_" + cmd](monitor, *tokens[1:])] for one [cmd_line] *)
Definition dispatch (cmd_line : string) : M unit :=
  let tokens := split cmd_line in
  let* cmd := orelse (head tokens) IndexError in
  let* target := orelse (globals !! ("cmd_" +:+ cmd)) KeyError in
  let* mon := (fun w => (Ret (monitor w), w)) in
  match target with
  | Function apply => apply mon (tail tokens)
  | Object => raise TypeError
  end.

Fixpoint dispatch_all (cmd_lines : list string) : M unit :=
  match cmd_lines with
  | [] => ret tt
  | cmd_line :: cmd_lines' => dispatch cmd_line ;; dispatch_all cmd_lines'
  end.

(** [try: m  except Exception as e: print(type(e)); print(format_exc())] *)
Definition except_Exception (m : M unit) : M unit :=
  fun w =>
    match m w with
    | (Raise e, w') =>
        if is_Exception e
        then (print (type_str e) ;; print (format_exc e)) w'
        else (Raise e, w')
    | r => r
    end.

Definition execute (line : string) : M unit :=
  except_Exception (dispatch_all (split_on ";" line)).

(** The two [continue] tests on the stripped line. *)
Definition skipped (line : string) : bool :=
  (String.length line =? 0)%nat || startswith line "#".

(** What [input] meets at the prompt: a line, or Ctrl-C.  The end of the list
    is the end of the input. *)
Inductive key :=
| Line (text : string)
| CtrlC.

(** Which [break] ended the loop. *)
Inductive exit :=
| EndOfInput
| Once.

Fixpoint interactive (stdin : list key) : M exit :=
  let* prompt := (fun w => (Ret (compose_prompt (active_mode w)), w)) in
  print_noend prompt ;;
  match stdin with
  | [] => print "" ;; ret EndOfInput
  | CtrlC :: stdin' => print "" ;; interactive stdin'
  | Line line :: stdin' =>
      let line := strip line in
      (if skipped line then ret tt else execute line) ;;
      interactive stdin'
  end.

Record arguments := Arguments_ { command : option string; stdio : option string }.

(** The module body: [CONSOLE_FILE] is set up, then the loop runs.  With
    [--command] the same line is taken at every turn, so a line that is
    skipped is skipped for ever. *)
Definition main (args : arguments) (stdin : list key) : M exit :=
  let* console :=
    match stdio args with
    | Some path => open_w path
    | None => ret Stdout
    end in
  (fun w => (Ret tt, set_CONSOLE_FILE console w)) ;;
  match command args with
  | Some line =>
      let line := strip line in
      if skipped line then diverge
      else execute line ;; ret Once
  | None => interactive stdin
  end.

(** The world at start-up. *)
Definition boot (now : F) (replies : list reply) : world :=
  World false VNone Stdout "" ∅ now [] replies.

(** ** Vocabulary of the properties *)

(** What a sink holds. *)
Definition content (f : sink) (w : world) : string :=
  match f with
  | Stdout => stdout w
  | File path => default "" (files w !! path)
  end.

(** The line that reports an interrupt context. *)
Definition interrupt_text (type : string) (id : Z) (saved_vcap : option F) : string :=
  "Interrupted: " +:+ repr_str type
  +:+ (if String.eqb type "ASSERT" then "line: " +:+ fmt_d id
       else if String.eqb type "BOOT" then ""
       else "id: " +:+ fmt_d id)
  +:+ match saved_vcap with
      | Some v => "Vcap_saved = " +:+ float_fixed 4 v +:+ nl
      | None => nl
      end.

(** The shape shared by [cmd_charge] and [cmd_discharge]: [adc] names the
    engine method of the ADC strategy, [cmp] the one of the comparator. *)
Definition charger_spec
    (cmd : value -> string -> string -> M unit) (adc cmp : string) : Prop :=
  forall (mon : value) (target_voltage method : string) (w : world),
    (forall x vcap v w1,
        method = "adc" ->
        float_of_str target_voltage = Some x ->
        invoke None mon adc [VFloat x] w = (Ret vcap, w1) ->
        float_operand vcap = Some v ->
        cmd mon target_voltage method w
        = (Ret tt, set_stdout (stdout w1 +:+ "Vcap = " +:+ float_fixed 4 v +:+ nl) w1)) /\
    (forall x r w1,
        method = "cmp" ->
        float_of_str target_voltage = Some x ->
        invoke None mon cmp [VFloat x] w = (Ret r, w1) ->
        cmd mon target_voltage method w = (Ret tt, w1)) /\
    (method <> "adc" -> method <> "cmp" ->
     exists e, cmd mon target_voltage method w = (Raise e, w) /\
       (is_Some (float_of_str target_voltage) ->
        e = Exception ("Invalid charger method: " +:+ method))).

Definition ends_with_newline (s : string) : bool :=
  match last_char s with
  | Some c => Ascii.eqb c newline
  | None => false
  end.

(** What a reply writes to the file object handed to the callee, and how it
    ends. *)
Fixpoint written (r : reply) : string :=
  match r with
  | Writes data r' => data +:+ written r'
  | _ => ""
  end.

Fixpoint result (r : reply) : reply :=
  match r with
  | Writes _ r' => result r'
  | _ => r
  end.

(** The keywords of [words] that [part] abbreviates. *)
Definition candidates (part : string) (words : list string) : list string :=
  List.filter (fun word => startswith word part) words.

(** An event, other than an interrupt context, that the loop of [cmd_wait]
    renders without failing: a watchpoint event that carries a vcap, a
    non-empty piece of relayed output, an energy profile. *)
Definition passes (event : value) : bool :=
  match event with
  | WatchpointEvent _ _ (Some _) => true
  | StdIOData _ string => negb (String.eqb string "")
  | EnergyProfile _ _ => true
  | _ => false
  end.

(** What handling one event writes, and where. *)
Definition rendering (console : sink) (flog : option sink) (start_time : F)
    (event : value) : list (sink * string) :=
  match event with
  | InterruptContext type id saved_vcap =>
      [(Stdout, interrupt_text type id saved_vcap)]
  | WatchpointEvent id timestamp (Some v) =>
      (Stdout, "Watchpoint: id: " +:+ fmt_d id +:+ " time: " +:+ float_fixed 6 timestamp
               +:+ " s Vcap = " +:+ float_fixed 4 v +:+ nl)
      :: match flog with
         | Some flog =>
             [(flog, fmt_d id +:+ "," +:+ float_fixed 6 timestamp +:+ ","
                     +:+ float_fixed 4 v +:+ nl)]
         | None => []
         end
  | StdIOData timestamp string =>
      [(console, float_fixed 3 (float_sub timestamp start_time) +:+ ": " +:+ string
                 +:+ (if ends_with_newline string then "" else nl))]
  | EnergyProfile timestamp profile =>
      [(Stdout, float_fixed 3 (float_sub timestamp start_time) +:+ ": "
                +:+ py_repr profile +:+ nl)]
  | _ => []
  end.

(** Writes carried out one after the other. *)
Definition emit (writes : list (sink * string)) (w : world) : world :=
  fold_left (fun w fs => snd (write (fst fs) (snd fs) w)) writes w.

(** The header row of a fresh watchpoint log. *)
Definition opened (log_file : option string) (w : world) : world :=
  match log_file with
  | Some path => set_files (<[path := "id,timestamp,vcap" +:+ nl]> (files w)) w
  | None => w
  end.

(** How a run of the console may end: by one of the two [break]s, by an
    exception that [except Exception] does not catch, or not at all. *)
Definition ending (command : option string) (r : outcome exit) : Prop :=
  match r with
  | Ret EndOfInput => command = None
  | Ret Once => is_Some command
  | Raise e => is_Exception e = false
  | Diverge => True
  end.

(** What a computation leaves alone: [frame mode mon eng w w'] says that
    from [w] to [w'] the flag [active_mode] is unchanged when [mode] is set,
    the global [monitor] when [mon] is set, and the call log and the script
    when [eng] is set. *)
Definition frame (mode mon eng : bool) (w w' : world) : Prop :=
  (mode = true -> active_mode w' = active_mode w) /\
  (mon = true -> monitor w' = monitor w) /\
  (eng = true -> calls w' = calls w /\ script w' = script w).

Definition keeps (mode mon eng : bool) {A} (m : M A) : Prop :=
  forall w, frame mode mon eng w (snd (m w)).

(** The command words of a line: the first token of each of its
    semicolon-separated commands. *)
Definition command_words (line : string) : list string :=
  omap (fun cmd_line => head (split cmd_line)) (split_on ";" line).

(** A line that runs nothing: white space only, or a first non-blank
    character [#]. *)
Definition blank_or_comment (line : string) : Prop :=
  lstrip line = "" \/ exists rest, lstrip line = String "#" rest.

(** The names the dispatch table knows after the prefix [cmd_]: the thirty
    commands, and three variables of the module that are not functions. *)
Definition command_names : list string :=
  ["echo"; "sleep"; "attach"; "detach"; "power"; "sense"; "reset"; "stream";
   "streamnp"; "charge"; "discharge"; "int"; "cont"; "ebreak"; "break"; "watch";
   "wait"; "intctx"; "read"; "write"; "pc"; "secho"; "decho"; "replay"; "lset";
   "lget"; "rset"; "rget"; "uart"; "payload"].

Definition variable_names : list string := ["hist_file"; "lines"; "line"].

(** The rows that a sequence of events adds to the watchpoint log. *)
Fixpoint log_rows (events : list value) : string :=
  match events with
  | [] => ""
  | WatchpointEvent id timestamp (Some v) :: events' =>
      fmt_d id +:+ "," +:+ float_fixed 6 timestamp +:+ "," +:+ float_fixed 4 v +:+ nl
      +:+ log_rows events'
  | _ :: events' => log_rows events'
  end.

(** The world after [cmd_wait] has handled the events [before], the next
    replies being [next]: the renderings are written in order and one call
    of [wait()] per event is logged. *)
Definition waited (log_file : option string) (before : list value) (next : list reply)
    (w : world) : world :=
  emit (concat (map (rendering (CONSOLE_FILE w) (File <$> log_file) (clock w)) before))
       (set_engine (calls w ++ repeat (Call "mon.wait" []) (length before)) next
          (opened log_file w)).

(** The texts among [writes] that go to the sink [f], joined. *)
Fixpoint texts_for (f : sink) (writes : list (sink * string)) : string :=
  match writes with
  | [] => ""
  | (g, s) :: writes' =>
      match f, g with
      | Stdout, Stdout => s +:+ texts_for f writes'
      | File p, File q => if String.eqb p q then s +:+ texts_for f writes'
                          else texts_for f writes'
      | _, _ => texts_for f writes'
      end
  end.

(** The bytes of a memory dump as [cmd_read] prints them. *)
Fixpoint hex_bytes (bytes : list Z) : string :=
  match bytes with
  | [] => ""
  | b :: bytes' => "0x" +:+ fmt_x 2 b +:+ hex_bytes bytes'
  end.

(** How many arguments each command takes after its name: the least number,
    and the greatest when there is one. *)
Definition arities : list (string * (nat * option nat)) :=
  [("echo", (1, Some 1)); ("sleep", (1, Some 1)); ("attach", (0, Some 2));
   ("detach", (0, Some 0)); ("power", (1, Some 1)); ("sense", (1, Some 1));
   ("reset", (0, Some 0)); ("stream", (2, None)); ("streamnp", (2, None));
   ("charge", (1, Some 2)); ("discharge", (1, Some 2)); ("int", (0, Some 0));
   ("cont", (0, Some 0)); ("ebreak", (1, Some 2)); ("break", (3, Some 4));
   ("watch", (2, Some 3)); ("wait", (0, Some 1)); ("intctx", (0, Some 1));
   ("read", (2, Some 2)); ("write", (1, None)); ("pc", (0, Some 0));
   ("secho", (1, Some 1)); ("decho", (1, Some 1)); ("replay", (1, Some 1));
   ("lset", (2, Some 2)); ("lget", (1, Some 1)); ("rset", (2, Some 2));
   ("rget", (1, Some 1)); ("uart", (1, Some 1)); ("payload", (1, Some 1))]%nat.

(** [n] arguments do not fit the arity [(least, greatest)]. *)
Definition misfit (n : nat) (arity : nat * option nat) : Prop :=
  (n < fst arity)%nat \/
  match snd arity with
  | Some greatest => (greatest < n)%nat
  | None => False
  end.

End Console.

Arguments world : clear implicits.
Arguments reply : clear implicits.
Arguments call : clear implicits.
Arguments Ret {A} a.
Arguments Raise {A} e.
Arguments Diverge {A}.

(** ** A runtime to run the model on examples

    Floats are taken to be decimal fixed-point numbers, counted in
    millionths, with exact arithmetic. *)

Module Millionths.

Definition pow10 (n : nat) : Z := 10 ^ Z.of_nat n.

(** Round [a / b] to the nearest integer, ties to even ([b > 0]). *)
Definition div_half_even (a b : Z) : Z :=
  let q := a / b in
  let r := a mod b in
  if (2 * r <? b) then q
  else if (b <? 2 * r) then q + 1
  else if Z.even q then q else q + 1.

Definition pad_left (n : nat) (s : string) : string :=
  zeros (n - String.length s) +:+ s.

Definition fixed (n : nat) (x : Z) : string :=
  let m := if (n <=? 6)%nat then div_half_even (Z.abs x) (pow10 (6 - n))
           else Z.abs x * pow10 (n - 6) in
  let sign := if x <? 0 then "-" else "" in
  let int_part := fmt_d (m / pow10 n) in
  match n with
  | O => sign +:+ int_part
  | _ => sign +:+ int_part +:+ "." +:+ pad_left n (fmt_d (m mod pow10 n))
  end.

Fixpoint drop_trailing_zeros (fuel : nat) (n : nat) (m : Z) : nat * Z :=
  match fuel with
  | O => (n, m)
  | S fuel' =>
      if (1 <? n)%nat && (m mod 10 =? 0)
      then drop_trailing_zeros fuel' (n - 1) (m / 10)
      else (n, m)
  end.

Definition repr (x : Z) : string :=
  let '(n, m) := drop_trailing_zeros 6 6 (Z.abs x) in
  let sign := if x <? 0 then "-" else "" in
  sign +:+ fmt_d (m / pow10 n) +:+ "." +:+ pad_left n (fmt_d (m mod pow10 n)).

Fixpoint all_digits (s : string) : bool :=
  match s with
  | EmptyString => true
  | String c s' =>
      match digit_val 10 c with
      | Some _ => all_digits s'
      | None => false
      end
  end.

Definition digits_value (s : string) : Z :=
  default 0 (digits_go 10 0 false s).

(** Plain decimal literals with at most six decimals. *)
Definition of_str (s : string) : option Z :=
  let '(neg, body) := signed (strip s) in
  let parsed :=
    match split_on "." body with
    | [i] =>
        if all_digits i && negb (String.eqb i "") then Some (digits_value i * 1000000) else None
    | [i; f] =>
        if all_digits i && all_digits f && negb (String.eqb (i +:+ f) "")
           && (String.length f <=? 6)%nat
        then Some (digits_value i * 1000000 + digits_value f * pow10 (6 - String.length f))
        else None
    | _ => None
    end in
  apply_sign neg <$> parsed.

End Millionths.

Definition millionths : Runtime Z := {|
  float_of_str := Millionths.of_str;
  float_of_int n := n * 1000000;
  float_sub := Z.sub;
  float_fixed := Millionths.fixed;
  float_repr := Millionths.repr;
  object_repr _ := "<object>";
  format_exc e := "Traceback (most recent call last):" +:+ nl +:+ class_name e +:+ nl
|}.

(** Tables for the examples: the breakpoint types named in the design notes,
    and the interrupt source that [cmd_intctx] takes by default next to a
    second one. *)
Definition header : HostCommHeader := {|
  BREAKPOINT_TYPE := ["CODE"; "ENERGY_LEVEL"];
  INTERRUPT_SOURCE := ["DEBUGGER"; "TARGET"]
|}.

(** The engine handle and the replay scenario used in the examples. *)
Definition ttyUSB0 : value Z := EDB "/dev/ttyUSB0" None.

(** The replay scenario of the design notes: an assertion at line 42, a
    watchpoint hit and a line of relayed output. *)
Definition assert_42 : value Z := InterruptContext "ASSERT" 42 (Some 2100000).
Definition watchpoint_3 : value Z := WatchpointEvent 3 5000 (Some 1980000).
Definition boot_line : value Z := StdIOData 10000 ("boot" +:+ nl).

Definition attached (replies : list (reply Z)) : world Z :=
  set_monitor ttyUSB0 (boot 0 replies).

(** ** Properties *)

Section Properties.

Context {F : Type} {runtime : Runtime F} {enums : HostCommHeader}.

Local Abbreviation value := (value F).
Local Abbreviation world := (world F).
Local Abbreviation reply := (reply F).
Local Abbreviation call := (call F).
Local Abbreviation M := (@M F).

(** *** Strings *)

Lemma append_cons (x : ascii) (a b : string) :
  String x a +:+ b = String x (a +:+ b).
Proof. reflexivity. Qed.

Lemma append_nil_l (a : string) : "" +:+ a = a.
Proof. reflexivity. Qed.

Lemma append_assoc (a b c : string) : (a +:+ b) +:+ c = a +:+ (b +:+ c).
Proof.
  induction a as [|x a IH]; [reflexivity |].
  now rewrite !append_cons, IH.
Qed.

Lemma append_nil_r (a : string) : a +:+ "" = a.
Proof.
  induction a as [|x a IH]; [reflexivity |].
  now rewrite append_cons, IH.
Qed.

Lemma append_eq_nil (a b : string) : a +:+ b = "" -> a = "" /\ b = "".
Proof. destruct a; [now rewrite append_nil_l | rewrite append_cons; discriminate]. Qed.

Lemma last_char_append (a b : string) :
  b <> "" -> last_char (a +:+ b) = last_char b.
Proof.
  intros Hb. induction a as [|x a IH]; [reflexivity |].
  rewrite append_cons. simpl. rewrite IH.
  destruct (a +:+ b) eqn:E; [| reflexivity].
  apply append_eq_nil in E. now destruct E.
Qed.

Lemma last_char_append_char (a : string) (c : ascii) :
  last_char (a +:+ String c "") = Some c.
Proof. now rewrite last_char_append. Qed.

Lemma last_char_None (s : string) : last_char s = None -> s = "".
Proof.
  induction s as [|x s IH]; [reflexivity |].
  simpl. destruct s; [discriminate |]. intros Hl. now apply IH in Hl.
Qed.

Lemma prefix_length (p s : string) :
  String.prefix p s = true -> (String.length p <= String.length s)%nat.
Proof.
  revert s. induction p as [|x p IH]; intros s; [cbn; lia |].
  destruct s as [|y s]; [discriminate |].
  change (String.prefix (String x p) (String y s))
    with (if ascii_dec x y then String.prefix p s else false).
  destruct (ascii_dec x y); [| discriminate].
  intros Hp. apply IH in Hp. cbn in *. lia.
Qed.

(** *** The world *)

Lemma content_write (f : sink) (s : string) (w : world) :
  content f (snd (write f s w)) = content f w +:+ s.
Proof.
  destruct f as [|path]; simpl; [reflexivity |].
  now rewrite lookup_insert_eq.
Qed.

Lemma write_write (f : sink) (a b : string) (w : world) :
  snd (write f b (snd (write f a w))) = snd (write f (a +:+ b) w).
Proof.
  destruct f as [|path]; simpl.
  - unfold set_stdout; simpl. now rewrite append_assoc.
  - unfold set_files; simpl. rewrite lookup_insert_eq, insert_insert_eq. simpl.
    now rewrite append_assoc.
Qed.

(** *** The monad *)

Lemma bind_Ret {A B} (m : M A) (k : A -> M B) (w w1 : world) (a : A) :
  m w = (Ret a, w1) -> bind m k w = k a w1.
Proof. unfold bind. now intros ->. Qed.

Lemma bind_Raise {A B} (m : M A) (k : A -> M B) (w w1 : world) (e : exn) :
  m w = (Raise e, w1) -> bind m k w = (Raise e, w1).
Proof. unfold bind. now intros ->. Qed.

Lemma bind_Diverge {A B} (m : M A) (k : A -> M B) (w w1 : world) :
  m w = (Diverge, w1) -> bind m k w = (Diverge, w1).
Proof. unfold bind. now intros ->. Qed.

Lemma bind_orelse_Some {A B} (a : A) (e : exn) (k : A -> M B) (w : world) :
  bind (orelse (Some a) e) k w = k a w.
Proof. reflexivity. Qed.

(** *** Calls to the engine *)

(** Without a file object in hand the callee leaves the world alone. *)
Lemma deliver_None_world (r : reply) (w : world) :
  snd (deliver None r w) = w.
Proof. induction r; simpl; auto. Qed.

(** A method call touches nothing but the call log and the script. *)
Lemma invoke_frame (mon : value) (name : string) (args : list value)
    (w w1 : world) (r : outcome value) :
  invoke None mon name args w = (r, w1) ->
  exists cs rs, w1 = set_engine cs rs w.
Proof.
  unfold invoke, external, raise. intros Hi.
  assert (Hw : exists cs rs, w = set_engine cs rs w)
    by (exists (calls w), (script w); now destruct w).
  destruct mon; try (injection Hi as _ <-; exact Hw).
  destruct (script w) as [|r0 rest].
  - injection Hi as _ <-. eauto.
  - assert (Hd := deliver_None_world r0 (set_engine (calls w ++ [Call ("mon." +:+ name) args]) rest w)).
    rewrite Hi in Hd. simpl in Hd. subst w1. eauto.
Qed.

Lemma invoke_Returns (out : option sink) (dev : string) (ul : option string)
    (name : string) (args : list value) (v : value) (rest : list reply) (w : world) :
  script w = Returns v :: rest ->
  invoke out (EDB dev ul) name args w
  = (Ret v, set_engine (calls w ++ [Call ("mon." +:+ name) args]) rest w).
Proof. unfold invoke, external. now intros ->. Qed.

(** *** Rendering of an interrupt context *)

Lemma print_interrupt_context_text (type : string) (id : Z)
    (saved_vcap : option F) (w : world) :
  print_interrupt_context (InterruptContext type id saved_vcap) w
  = write Stdout (interrupt_text type id saved_vcap) w.
Proof.
  unfold print_interrupt_context, interrupt_text, bind, print, print_noend, write, ret.
  destruct (String.eqb type "ASSERT"); [| destruct (String.eqb type "BOOT")];
    destruct saved_vcap; simpl; unfold set_stdout; simpl;
    now rewrite ?append_assoc, ?append_nil_l.
Qed.

(** C7.  [print_interrupt_context] prints the type, then the id as a line
    number when the type is ASSERT, no id when the type is BOOT and the id as
    a breakpoint or event id for any other type; the saved vcap follows
    exactly when it is present, and the line always ends. *)
Theorem print_interrupt_context_report (type : string) (id : Z)
    (saved_vcap : option F) (w : world) :
  let vcap_report :=
    match saved_vcap with
    | Some v => "Vcap_saved = " +:+ float_fixed 4 v +:+ nl
    | None => nl
    end in
  let shows (text : string) :=
    print_interrupt_context (InterruptContext type id saved_vcap) w
    = (Ret tt, set_stdout (stdout w +:+ text) w) in
  (type = "ASSERT" ->
     shows ("Interrupted: 'ASSERT'" +:+ "line: " +:+ fmt_d id +:+ vcap_report)) /\
  (type = "BOOT" ->
     shows ("Interrupted: 'BOOT'" +:+ vcap_report)) /\
  (type <> "ASSERT" -> type <> "BOOT" ->
     shows ("Interrupted: " +:+ repr_str type +:+ "id: " +:+ fmt_d id +:+ vcap_report)).
Proof.
  cbv zeta. rewrite print_interrupt_context_text. unfold interrupt_text, write.
  repeat split.
  - now intros ->.
  - now intros ->.
  - intros Ha Hb. apply String.eqb_neq in Ha, Hb. now rewrite Ha, Hb.
Qed.

(** *** The watchpoint log *)

(** A sampled event is logged as one row [id,timestamp,vcap]. *)
Lemma log_watchpoint_event_sampled (fout : sink) (id : Z) (timestamp v : F) (w : world) :
  log_watchpoint_event fout (WatchpointEvent id timestamp (Some v)) w
  = write fout (fmt_d id +:+ "," +:+ float_fixed 6 timestamp +:+ ","
                +:+ float_fixed 4 v +:+ nl) w.
Proof. reflexivity. Qed.

(** C1.  The code at an event whose vcap was not sampled: formatting [None]
    with [%.4f] raises [TypeError], so no row with a blank vcap is written.
    [log_watchpoint_event] fails and leaves the file as it was; in [cmd_wait]
    the failure comes even earlier, from [print_watchpoint_event], and the
    log holds the header row only. *)
Theorem log_watchpoint_event_unsampled (fout : sink) (id : Z) (timestamp : F)
    (dev log_file : string) (ul : option string) (rest : list reply) (w : world) :
  log_watchpoint_event fout (WatchpointEvent id timestamp None) w = (Raise TypeError, w) /\
  let w0 := set_engine (calls w) (Returns (WatchpointEvent id timestamp None) :: rest) w in
  fst (cmd_wait (EDB dev ul) (Some log_file) w0) = Raise TypeError /\
  content (File log_file) (snd (cmd_wait (EDB dev ul) (Some log_file) w0))
  = "id,timestamp,vcap" +:+ nl.
Proof.
  split; [reflexivity |]. cbv zeta.
  unfold cmd_wait, bind, open_w, init_watchpoint_log, write, ret,
    except_KeyboardInterrupt, time_time. simpl.
  unfold invoke, external, bind. simpl.
  split; [reflexivity |].
  now rewrite !lookup_insert_eq.
Qed.

(** *** Interrupting the target *)

(** C3.  When [interrupt()] is cancelled, [cmd_int] absorbs the
    [KeyboardInterrupt] and [active_mode] is what it was before the call;
    [cmd_int] turns [active_mode] on only after [interrupt()] has returned a
    value that formats as a voltage. *)
Theorem cmd_int_cancelled (mon : value) (w : world) :
  (forall w1, invoke None mon "interrupt" [] w = (Raise KeyboardInterrupt, w1) ->
     cmd_int mon w = (Ret tt, w1) /\ active_mode w1 = active_mode w) /\
  (active_mode w = false -> active_mode (snd (cmd_int mon w)) = true ->
     exists saved_vcap v w1,
       invoke None mon "interrupt" [] w = (Ret saved_vcap, w1) /\
       float_operand saved_vcap = Some v /\
       cmd_int mon w
       = (Ret tt, set_active_mode true
                    (set_stdout (stdout w1 +:+ "Vcap_saved = " +:+ float_fixed 4 v +:+ nl) w1))).
Proof.
  split.
  - intros w1 Hi. unfold cmd_int, except_KeyboardInterrupt.
    rewrite (bind_Raise _ _ _ _ _ Hi). split; [reflexivity |].
    destruct (invoke_frame _ _ _ _ _ _ Hi) as (cs & rs & ->). reflexivity.
  - intros Hoff Hon. unfold cmd_int, except_KeyboardInterrupt in *.
    destruct (invoke None mon "interrupt" [] w) as [[saved_vcap|e|] w1] eqn:Hi.
    + rewrite (bind_Ret _ _ _ _ _ Hi) in *.
      destruct (float_operand saved_vcap) as [v|] eqn:Hv.
      * exists saved_vcap, v, w1. split; [reflexivity |]. split; [exact Hv |].
        unfold bind, orelse, ret, print, write. simpl.
        unfold set_stdout. simpl. now rewrite append_assoc.
      * exfalso. simpl in Hon.
        destruct (invoke_frame _ _ _ _ _ _ Hi) as (cs & rs & ->).
        simpl in Hon. congruence.
    + exfalso. rewrite (bind_Raise _ _ _ _ _ Hi) in Hon.
      destruct (invoke_frame _ _ _ _ _ _ Hi) as (cs & rs & ->).
      destruct e; simpl in Hon; congruence.
    + exfalso. rewrite (bind_Diverge _ _ _ _ Hi) in Hon.
      destruct (invoke_frame _ _ _ _ _ _ Hi) as (cs & rs & ->).
      simpl in Hon. congruence.
Qed.

(** *** Charging and discharging *)

(** C5.  [cmd_charge] and [cmd_discharge]: with method [adc] the engine's
    [charge]/[discharge] is called and the vcap it returns is printed; with
    [cmp] the engine's [charge_cmp]/[discharge_cmp] is called and nothing is
    printed; with any other method the command raises and the world,
    call log included, is untouched. *)
Theorem charger_methods :
  charger_spec cmd_charge "charge" "charge_cmp" /\
  charger_spec cmd_discharge "discharge" "discharge_cmp".
Proof.
  split; intros mon target_voltage method w; repeat split.
  all: try (intros x vcap v w1 -> Hx Hi Hv; unfold cmd_charge, cmd_discharge;
            rewrite Hx; simpl; unfold bind at 1; simpl;
            rewrite (bind_Ret _ _ _ _ _ Hi), Hv;
            unfold bind, orelse, ret, print, write; simpl;
            unfold set_stdout; simpl; now rewrite append_assoc).
  all: try (intros x r w1 -> Hx Hi; unfold cmd_charge, cmd_discharge;
            rewrite Hx; simpl; unfold bind at 1; simpl;
            now rewrite (bind_Ret _ _ _ _ _ Hi)).
  all: intros Ha Hc; apply String.eqb_neq in Ha, Hc;
    unfold cmd_charge, cmd_discharge, bind, orelse, ret, raise;
    destruct (float_of_str target_voltage) as [x|]; simpl;
    [ rewrite Ha, Hc; eexists; split; [reflexivity | reflexivity]
    | eexists; split; [reflexivity | intros [? [=]]] ].
Qed.

(** *** Relayed console output *)

(** C10.  The [StdIOData] branch of the loop of [cmd_wait]: on an empty
    string the indexing [event.string[-1]] raises [IndexError]; on a
    non-empty one the console sink receives the time since the start of the
    wait, the string, and a newline exactly when the string does not end
    with one, so what is written always ends with a newline. *)
Theorem stdio_line (mon : value) (flog : option sink) (start_time timestamp : F)
    (string : String.string) (w w1 : world) :
  invoke None mon "wait" [] w = (Ret (StdIOData timestamp string), w1) ->
  let stamp := float_fixed 3 (float_sub timestamp start_time) +:+ ": " in
  (string = "" -> fst (wait_step mon flog start_time w) = Raise IndexError) /\
  (string <> "" ->
   exists text w2,
     wait_step mon flog start_time w = (Ret false, w2) /\
     content (CONSOLE_FILE w) w2 = content (CONSOLE_FILE w) w +:+ text /\
     text = stamp +:+ string +:+ (if ends_with_newline string then "" else nl) /\
     last_char text = Some newline).
Proof.
  intros Hi. cbv zeta.
  destruct (invoke_frame _ _ _ _ _ _ Hi) as (cs & rs & Hw1).
  assert (Hc : CONSOLE_FILE w1 = CONSOLE_FILE w) by (now subst w1).
  assert (Hk : content (CONSOLE_FILE w) w1 = content (CONSOLE_FILE w) w)
    by (subst w1; now destruct (CONSOLE_FILE w)).
  unfold wait_step. rewrite (bind_Ret _ _ _ _ _ Hi). split.
  - intros ->. unfold bind, write, orelse, raise; simpl.
    now destruct (CONSOLE_FILE w1).
  - intros Hne.
    unfold ends_with_newline.
    destruct (last_char string) as [c|] eqn:Hl; [| now apply last_char_None in Hl].
    unfold bind at 1. simpl. rewrite Hc.
    set (console := CONSOLE_FILE w) in *.
    set (stamp := float_fixed 3 (float_sub timestamp start_time) +:+ ": ") in *.
    exists (stamp +:+ string +:+ (if Ascii.eqb c newline then "" else nl)).
    unfold bind at 1. destruct (write console stamp w1) as [o wa] eqn:Ea.
    assert (Hoa : o = Ret tt) by (unfold write in Ea; destruct console; now inversion Ea).
    subst o.
    unfold bind at 1. destruct (write console string wa) as [o wb] eqn:Eb.
    assert (Hob : o = Ret tt) by (unfold write in Eb; destruct console; now inversion Eb).
    subst o.
    rewrite (bind_Ret _ _ wb wb c) by reflexivity.
    assert (Hwb : content console wb = content console w +:+ stamp +:+ string).
    { replace wb with (snd (write console string wa)) by (now rewrite Eb).
      replace wa with (snd (write console stamp w1)) by (now rewrite Ea).
      now rewrite !content_write, Hk, append_assoc. }
    destruct (Ascii.eqb c newline) eqn:Hc'.
    + exists wb. split; [reflexivity |]. split; [| split; [reflexivity |]].
      * now rewrite append_nil_r.
      * rewrite append_nil_r. apply Ascii.eqb_eq in Hc'. subst c.
        now rewrite last_char_append.
    + destruct (write console nl wb) as [o wc] eqn:Ec.
      assert (Hoc : o = Ret tt) by (unfold write in Ec; destruct console; now inversion Ec).
      subst o. exists wc. split; [| split; [| split; [reflexivity |]]].
      * unfold bind. now rewrite Ec.
      * replace wc with (snd (write console nl wb)) by (now rewrite Ec).
        now rewrite content_write, Hwb, !append_assoc.
      * rewrite <- !append_assoc. apply last_char_append_char.
Qed.

(** *** Streaming *)

Lemma deliver_cancelled (f : sink) (r : reply) (e : exn) (w : world) :
  result r = Raises e ->
  let w' := snd (deliver (Some f) r w) in
  fst (deliver (Some f) r w) = Raise e /\
  active_mode w' = active_mode w /\ calls w' = calls w /\ script w' = script w /\
  match f with
  | Stdout => stdout w' = stdout w +:+ written r /\ files w' = files w
  | File path =>
      stdout w' = stdout w /\
      forall c, files w !! path = Some c ->
                files w' = <[path := c +:+ written r]> (files w)
  end.
Proof.
  revert w. induction r as [v|e'|data r IH]; intros w Hr; simpl in Hr.
  - discriminate.
  - injection Hr as ->. simpl. repeat split; try reflexivity.
    destruct f as [|path]; simpl.
    + now rewrite append_nil_r.
    + split; [reflexivity |]. intros c Hc. now rewrite append_nil_r, insert_id.
  - specialize (IH (snd (write f data w)) Hr). cbv zeta in IH.
    destruct IH as (Hf & Ha & Hc & Hs & Hout).
    assert (Hstep : deliver (Some f) (Writes data r) w
                    = deliver (Some f) r (snd (write f data w))).
    { simpl. unfold bind. now destruct f. }
    cbv zeta. rewrite Hstep. split; [exact Hf |].
    split; [rewrite Ha; now destruct f |].
    split; [rewrite Hc; now destruct f |].
    split; [rewrite Hs; now destruct f |].
    destruct f as [|path]; simpl in *.
    + destruct Hout as [-> ->]. now rewrite append_assoc.
    + destruct Hout as [-> Hfiles]. split; [reflexivity |]. intros c Hc'.
      rewrite (Hfiles (c +:+ data)) by (now rewrite Hc', lookup_insert_eq).
      now rewrite insert_insert_eq, append_assoc.
Qed.

(** C4.  A stream cancelled while the engine is writing: [do_stream]
    absorbs the [KeyboardInterrupt] and returns normally, [active_mode] is
    unchanged, and the destination holds exactly what the engine had written
    up to the cancellation, with nothing added, removed or rewritten by the
    console (on standard output: appended to what was there; in a file: the
    file's whole content, every other file being untouched). *)
Theorem do_stream_cancelled (dev out_file duration_sec : string) (ul : option string)
    (streams : list string) (no_parse : bool) (r : reply) (rest : list reply) (w : world) :
  duration_sec = "-" \/ is_Some (float_of_str duration_sec) ->
  script w = r :: rest ->
  result r = Raises KeyboardInterrupt ->
  let run := do_stream (EDB dev ul) out_file duration_sec streams no_parse w in
  fst run = Ret tt /\
  active_mode (snd run) = active_mode w /\
  (out_file = "-" ->
     stdout (snd run) = stdout w +:+ written r /\ files (snd run) = files w) /\
  (out_file <> "-" ->
     stdout (snd run) = stdout w /\ files (snd run) = <[out_file := written r]> (files w)).
Proof.
  intros Hd Hs Hr. cbv zeta.
  destruct (do_stream (EDB dev ul) out_file duration_sec streams no_parse w)
    as [o wf] eqn:Hrun.
  unfold do_stream in Hrun.
  set (duration := if String.eqb duration_sec "-" then ret VNone else _) in Hrun.
  assert (Hdur : exists d, duration w = (Ret d, w)).
  { subst duration. destruct Hd as [-> | [x Hx]].
    - simpl. now exists VNone.
    - destruct (String.eqb duration_sec "-"); [now exists VNone |].
      rewrite Hx. now exists (VFloat x). }
  destruct Hdur as [d Hdur]. rewrite (bind_Ret _ _ _ _ _ Hdur) in Hrun.
  destruct (String.eqb out_file "-") eqn:Ho.
  - apply String.eqb_eq in Ho. subst out_file.
    unfold bind at 1 in Hrun. simpl in Hrun.
    unfold except_KeyboardInterrupt, bind, invoke, external in Hrun.
    rewrite Hs in Hrun.
    match type of Hrun with context [deliver (Some Stdout) r ?w0] =>
      destruct (deliver_cancelled Stdout r _ w0 Hr) as (Hf & Ha & _ & _ & Hout & Hfs);
      destruct (deliver (Some Stdout) r w0) as [o' w'] end.
    simpl in *. subst o'. injection Hrun as <- <-.
    split; [reflexivity |]. split; [assumption |].
    split; [now intros _ | now intros []].
  - apply String.eqb_neq in Ho.
    unfold bind at 1 in Hrun. simpl in Hrun.
    unfold except_KeyboardInterrupt, bind, invoke, external in Hrun.
    simpl in Hrun. rewrite Hs in Hrun.
    match type of Hrun with context [deliver (Some (File out_file)) r ?w0] =>
      destruct (deliver_cancelled (File out_file) r _ w0 Hr) as (Hf & Ha & _ & _ & Hout & Hfs);
      destruct (deliver (Some (File out_file)) r w0) as [o' w'] end.
    simpl in *. subst o'. injection Hrun as <- <-.
    split; [reflexivity |]. split; [assumption |].
    split; [now intros -> |]. intros _. split; [assumption |].
    rewrite (Hfs "") by apply lookup_insert_eq.
    now rewrite insert_insert_eq.
Qed.

(** *** Keywords and breakpoints *)

Lemma match_keyword_from_candidates (found : option string) (part : string)
    (words : list string) (w : world) :
  match_keyword_from found part words w =
  match found, candidates part words with
  | _, [] => (Ret found, w)
  | None, [word] => (Ret (Some word), w)
  | _, _ => (Raise (Exception ("Ambiguous keyword: " +:+ part)), w)
  end.
Proof.
  revert found. induction words as [|word words IH]; intros found; simpl.
  - now destruct found.
  - unfold candidates in *. simpl. destruct (startswith word part) eqn:Hp.
    + destruct found as [f|]; [reflexivity |].
      rewrite IH. now destruct (List.filter _ words).
    + apply IH.
Qed.

(** [match_keyword] returns the one keyword that [part] abbreviates, raises
    when there are several, and returns [None] when there is none. *)
Lemma match_keyword_candidates (part : string) (words : list string) (w : world) :
  match_keyword part words w =
  match candidates part words with
  | [] => (Ret None, w)
  | [word] => (Ret (Some word), w)
  | _ => (Raise (Exception ("Ambiguous keyword: " +:+ part)), w)
  end.
Proof. exact (match_keyword_from_candidates None part words w). Qed.

(** X22.  [break] with a type that abbreviates exactly one breakpoint type:
    the engine's [toggle_breakpoint] is called once, with the full keyword
    of the table in place of the abbreviation. *)
Lemma cmd_break_resolved (dev type idx op word : string) (ul : option string)
    (n : Z) (v : value) (rest : list reply) (w : world) :
  candidates (upper type) BREAKPOINT_TYPE = [word] ->
  int10 idx = Some n ->
  script w = Returns v :: rest ->
  In word BREAKPOINT_TYPE /\
  cmd_break (EDB dev ul) type idx op None w
  = (Ret tt, set_engine
               (calls w ++ [Call "mon.toggle_breakpoint"
                              [VStr word; VInt n; VBool (startswith "enable" op); VNone]])
               rest w).
Proof.
  intros Hc Hn Hs. split.
  - assert (Hin : In word (candidates (upper type) BREAKPOINT_TYPE))
      by (rewrite Hc; now left).
    now apply List.filter_In in Hin.
  - unfold cmd_break. rewrite Hn. unfold bind at 1. simpl.
    unfold bind at 1. rewrite match_keyword_candidates, Hc.
    unfold bind at 1. simpl. unfold bind, invoke, external. now rewrite Hs.
Qed.

(** X23.  [break] with a type that abbreviates several breakpoint types
    raises, whatever the other arguments and the engine handle, and the
    world is untouched: the engine is not called. *)
Lemma cmd_break_ambiguous (mon : value) (type idx op a b : string)
    (more : list string) (energy_level : option string) (w : world) :
  candidates (upper type) BREAKPOINT_TYPE = a :: b :: more ->
  exists e, cmd_break mon type idx op energy_level w = (Raise e, w).
Proof.
  intros Hc. unfold cmd_break, bind, orelse, ret, raise.
  destruct (int10 idx); [| now eexists].
  rewrite match_keyword_candidates, Hc. now eexists.
Qed.

(** C6.  The code at a type argument that abbreviates no breakpoint type:
    [match_keyword] returns [None] without raising, and [cmd_break] calls the
    engine's [toggle_breakpoint] with [None] in place of a keyword. *)
Theorem cmd_break_unknown_type (dev type idx op : string) (ul : option string)
    (n : Z) (v : value) (rest : list reply) (w : world) :
  candidates (upper type) BREAKPOINT_TYPE = [] ->
  int10 idx = Some n ->
  script w = Returns v :: rest ->
  match_keyword (upper type) BREAKPOINT_TYPE w = (Ret None, w) /\
  cmd_break (EDB dev ul) type idx op None w
  = (Ret tt, set_engine
               (calls w ++ [Call "mon.toggle_breakpoint"
                              [VNone; VInt n; VBool (startswith "enable" op); VNone]])
               rest w).
Proof.
  intros Hc Hn Hs. split.
  - now rewrite match_keyword_candidates, Hc.
  - unfold cmd_break. rewrite Hn. unfold bind at 1. simpl.
    unfold bind at 1. rewrite match_keyword_candidates, Hc.
    unfold bind at 1. simpl. unfold bind, invoke, external. now rewrite Hs.
Qed.

(** *** The enable argument *)

Lemma enable_prefixes (op : string) :
  startswith "enable" op = true <->
  In op [""; "e"; "en"; "ena"; "enab"; "enabl"; "enable"].
Proof.
  unfold startswith. split.
  - intros Hp. assert (Hl := prefix_length _ _ Hp).
    apply prefix_correct in Hp. rewrite <- Hp.
    change (String.length "enable") with 6%nat in Hl.
    destruct (String.length op) as [|[|[|[|[|[|[|k]]]]]]]; cbn; tauto.
  - intros Hin. repeat (destruct Hin as [<- | Hin]; [reflexivity |]). destruct Hin.
Qed.

(** C8.  In [cmd_break], [cmd_watch], [cmd_uart] and [cmd_payload] the
    engine receives enable = True exactly when [op] is a prefix of "enable"
    (the empty string and "e" included); for any other [op] it receives
    False, and no error is raised on account of [op]. *)
Theorem op_selects_enable (dev op : string) (ul : option string) (v : value)
    (rest : list reply) (w : world) :
  script w = Returns v :: rest ->
  let enable := startswith "enable" op in
  let called (name : string) (args : list value) :=
    (Ret tt, set_engine (calls w ++ [Call name args]) rest w) in
  (enable = true <-> In op [""; "e"; "en"; "ena"; "enab"; "enabl"; "enable"]) /\
  cmd_uart (EDB dev ul) op w = called "mon.enable_target_uart" [VBool enable] /\
  cmd_payload (EDB dev ul) op w = called "mon.enable_periodic_payload" [VBool enable] /\
  (forall idx n vcap_snapshot,
      int10 idx = Some n ->
      cmd_watch (EDB dev ul) idx op vcap_snapshot w
      = called "mon.toggle_watchpoint"
          [VInt n; VBool enable; VBool (startswith "vcap" vcap_snapshot)]) /\
  (forall type idx n keyword energy_level level,
      int10 idx = Some n ->
      match_keyword (upper type) BREAKPOINT_TYPE w = (Ret keyword, w) ->
      opt_float energy_level w = (Ret level, w) ->
      cmd_break (EDB dev ul) type idx op energy_level w
      = called "mon.toggle_breakpoint" [opt_str keyword; VInt n; VBool enable; level]).
Proof.
  intros Hs. cbv zeta. split; [apply enable_prefixes |].
  split; [| split; [| split]].
  - unfold cmd_uart.
    now rewrite (bind_Ret _ _ _ _ _ (invoke_Returns _ _ _ _ _ _ _ _ Hs)).
  - unfold cmd_payload.
    now rewrite (bind_Ret _ _ _ _ _ (invoke_Returns _ _ _ _ _ _ _ _ Hs)).
  - intros idx n snap Hn. unfold cmd_watch. rewrite Hn, bind_orelse_Some.
    now rewrite (bind_Ret _ _ _ _ _ (invoke_Returns _ _ _ _ _ _ _ _ Hs)).
  - intros type idx n keyword energy_level level Hn Hk Hl.
    unfold cmd_break. rewrite Hn, bind_orelse_Some.
    rewrite (bind_Ret _ _ _ _ _ Hk), (bind_Ret _ _ _ _ _ Hl).
    now rewrite (bind_Ret _ _ _ _ _ (invoke_Returns _ _ _ _ _ _ _ _ Hs)).
Qed.

(** *** Waiting for events *)

Lemma emit_app (a b : list (sink * string)) (w : world) :
  emit (a ++ b) w = emit b (emit a w).
Proof. apply fold_left_app. Qed.

Lemma write_set_engine (f : sink) (s : string) (cs : list call) (rs : list reply)
    (w : world) :
  snd (write f s (set_engine cs rs w)) = set_engine cs rs (snd (write f s w)).
Proof. now destruct f. Qed.

Lemma emit_set_engine (writes : list (sink * string)) (cs : list call)
    (rs : list reply) (w : world) :
  emit writes (set_engine cs rs w) = set_engine cs rs (emit writes w).
Proof.
  revert w. induction writes as [|[f s] writes IH]; intros w; [reflexivity |].
  unfold emit in *. simpl. now rewrite write_set_engine, IH.
Qed.

Lemma emit_frame (writes : list (sink * string)) (w : world) :
  active_mode (emit writes w) = active_mode w /\
  CONSOLE_FILE (emit writes w) = CONSOLE_FILE w /\
  clock (emit writes w) = clock w /\
  calls (emit writes w) = calls w /\
  script (emit writes w) = script w.
Proof.
  revert w. induction writes as [|[f s] writes IH]; intros w; [now repeat split |].
  unfold emit in *. simpl.
  destruct (IH (snd (write f s w))) as (-> & -> & -> & -> & ->). now destruct f.
Qed.

Lemma write_Ret (f : sink) (s : string) (w : world) :
  write f s w = (Ret tt, snd (write f s w)).
Proof. now destruct f. Qed.

Lemma bind_write {B} (f : sink) (s : string) (k : unit -> M B) (w : world) :
  bind (write f s) k w = k tt (snd (write f s w)).
Proof. now destruct f. Qed.

(** One turn of the loop on an event that passes. *)
Lemma wait_step_passes (dev : string) (ul : option string) (flog : option sink)
    (start_time : F) (event : value) (rest : list reply) (w : world) :
  passes event = true ->
  script w = Returns event :: rest ->
  wait_step (EDB dev ul) flog start_time w
  = (Ret false,
     emit (rendering (CONSOLE_FILE w) flog start_time event)
          (set_engine (calls w ++ [Call "mon.wait" []]) rest w)).
Proof.
  intros Hp Hs. unfold wait_step.
  rewrite (bind_Ret _ _ _ _ _ (invoke_Returns _ _ _ _ _ _ _ _ Hs)).
  set (w1 := set_engine _ rest w).
  destruct event as [| | | | | | | |id ts [v|]|ts s|ts p| |]; try discriminate.
  - (* a watchpoint event *)
    unfold print_watchpoint_event, log_watchpoint_event, emit, rendering, print, nl.
    destruct flog as [[|path]|]; unfold bind, orelse, ret, write; simpl;
      now rewrite !append_assoc.
  - (* relayed output *)
    simpl in Hp. apply negb_true_iff, String.eqb_neq in Hp.
    unfold emit, rendering, ends_with_newline. simpl fold_left.
    destruct (last_char s) as [c|] eqn:Hl; [| now apply last_char_None in Hl].
    unfold bind at 1. cbv beta iota. change (CONSOLE_FILE w1) with (CONSOLE_FILE w).
    rewrite bind_write. cbv beta. rewrite bind_write. cbv beta.
    rewrite bind_orelse_Some, write_write.
    destruct (Ascii.eqb c newline).
    + unfold bind, ret. now rewrite append_nil_r, append_assoc.
    + rewrite bind_write, write_write. unfold ret.
      now rewrite !append_assoc.
  - (* an energy profile *)
    unfold emit, rendering, print. rewrite bind_write. simpl.
    now rewrite !append_assoc.
Qed.

(** The turn of the loop at which an interrupt context arrives. *)
Lemma wait_step_interrupt (dev type : string) (ul : option string) (flog : option sink)
    (start_time : F) (id : Z) (saved_vcap : option F) (rest : list reply) (w : world) :
  script w = Returns (InterruptContext type id saved_vcap) :: rest ->
  wait_step (EDB dev ul) flog start_time w
  = (Ret true,
     set_active_mode true
       (emit (rendering (CONSOLE_FILE w) flog start_time
                (InterruptContext type id saved_vcap))
             (set_engine (calls w ++ [Call "mon.wait" []]) rest w))).
Proof.
  intros Hs. unfold wait_step.
  rewrite (bind_Ret _ _ _ _ _ (invoke_Returns _ _ _ _ _ _ _ _ Hs)).
  unfold bind at 1. now rewrite print_interrupt_context_text.
Qed.

(** The loop, run on a script that holds events that pass and then an
    interrupt context. *)
Lemma while_True_in_order (dev type : string) (ul : option string) (flog : option sink)
    (start_time : F) (id : Z) (saved_vcap : option F) (after : list reply)
    (before : list value) (w : world) :
  forallb passes before = true ->
  script w = map Returns before ++ Returns (InterruptContext type id saved_vcap) :: after ->
  while_True (wait_step (EDB dev ul) flog start_time) (script w) w
  = (Ret tt,
     set_active_mode true
       (emit (concat (map (rendering (CONSOLE_FILE w) flog start_time)
                          (before ++ [InterruptContext type id saved_vcap])))
             (set_engine (calls w ++ repeat (Call "mon.wait" []) (S (length before)))
                         after w))).
Proof.
  revert w. induction before as [|event before IH]; intros w Hp Hs.
  - simpl in Hs. rewrite Hs at 1. simpl while_True.
    rewrite (bind_Ret _ _ _ _ _ (wait_step_interrupt _ _ _ _ _ _ _ _ _ Hs)).
    reflexivity.
  - simpl in Hp. apply andb_true_iff in Hp as [Hp Hps].
    simpl in Hs. rewrite Hs at 1. simpl while_True.
    rewrite (bind_Ret _ _ _ _ _ (wait_step_passes _ _ _ _ _ _ _ Hp Hs)).
    cbv iota.
    set (rest := map Returns before ++ _) in *.
    set (w1 := set_engine _ rest w).
    set (w2 := emit _ w1).
    destruct (emit_frame (rendering (CONSOLE_FILE w) flog start_time event) w1)
      as (_ & Hcf & _ & Hcs & Hsc).
    fold w2 in Hcf, Hcs, Hsc.
    assert (Hs2 : script w2 = rest) by (now rewrite Hsc).
    rewrite <- Hs2 at 1. rewrite (IH w2 Hps Hs2).
    f_equal. f_equal. rewrite Hcf, Hcs. subst w2 w1. simpl.
    rewrite emit_app, !emit_set_engine. simpl.
    now rewrite <- app_assoc.
Qed.

(** C2, as the code has it.  When every event that precedes the first
    interrupt context passes (each watchpoint event carries a vcap, each
    relayed string is non-empty), [cmd_wait] fetches the events one call of
    [wait()] at a time, writes the renderings of the events in arrival order,
    none skipped, stops at the first interrupt context, leaving the replies
    after it unread, and [active_mode] is then [True]. *)
Theorem cmd_wait_in_order (dev type : string) (ul log_file : option string)
    (before : list value) (id : Z) (saved_vcap : option F) (after : list reply)
    (w : world) :
  forallb passes before = true ->
  script w = map Returns before ++ Returns (InterruptContext type id saved_vcap) :: after ->
  let events := before ++ [InterruptContext type id saved_vcap] in
  let shown :=
    concat (map (rendering (CONSOLE_FILE w) (File <$> log_file) (clock w)) events) in
  let final :=
    set_active_mode true
      (emit shown
         (set_engine (calls w ++ repeat (Call "mon.wait" []) (length events)) after
            (opened log_file w))) in
  cmd_wait (EDB dev ul) log_file w = (Ret tt, final) /\
  active_mode final = true /\
  script final = after.
Proof.
  intros Hp Hs. cbv zeta. split.
  - unfold cmd_wait.
    assert (Hopen : forall k : option sink -> M unit,
               bind match log_file with
                    | Some log_file =>
                        bind (open_w log_file)
                          (fun flog => bind (init_watchpoint_log flog)
                                         (fun _ => ret (Some flog)))
                    | None => ret None
                    end k w
               = k (File <$> log_file) (opened log_file w)).
    { intros k. destruct log_file as [path|]; [| reflexivity].
      unfold bind, open_w, init_watchpoint_log, write, ret, opened. simpl.
      unfold set_files. simpl.
      now rewrite lookup_insert_eq, insert_insert_eq, append_nil_l. }
    rewrite Hopen. unfold except_KeyboardInterrupt, time_time.
    unfold bind at 1.
    assert (Hs' : script (opened log_file w)
                  = map Returns before ++ Returns (InterruptContext type id saved_vcap) :: after)
      by (now destruct log_file).
    rewrite (while_True_in_order _ _ _ _ _ _ _ _ _ _ Hp Hs').
    rewrite length_app, Nat.add_comm. simpl.
    now destruct log_file.
  - split; [reflexivity |].
    simpl. now destruct (emit_frame
      (concat (map (rendering (CONSOLE_FILE w) (File <$> log_file) (clock w))
                   (before ++ [InterruptContext type id saved_vcap])))
      (set_engine (calls w ++ repeat (Call "mon.wait" [])
                     (length (before ++ [InterruptContext type id saved_vcap])))
                  after (opened log_file w))) as (_ & _ & _ & _ & ->).
Qed.

(** *** The loop of [cmd_wait] is the loop of the source *)

Lemma invoke_Ret_inv (mon : value) (name : string) (args : list value) (v : value)
    (w w1 : world) :
  invoke None mon name args w = (Ret v, w1) ->
  exists r rest,
    script w = r :: rest /\
    w1 = set_engine (calls w ++ [Call ("mon." +:+ name) args]) rest w.
Proof.
  unfold invoke, external, raise. intros Hi.
  destruct mon; try discriminate.
  destruct (script w) as [|r rest]; [discriminate |].
  exists r, rest. split; [reflexivity |].
  assert (Hd := deliver_None_world r
                  (set_engine (calls w ++ [Call ("mon." +:+ name) args]) rest w)).
  rewrite Hi in Hd. now simpl in Hd.
Qed.

Lemma script_write (f : sink) (s : string) (w : world) :
  script (snd (write f s w)) = script w.
Proof. now destruct f. Qed.

(** Every turn of the loop that comes back has used up one reply. *)
Lemma wait_step_consumes (mon : value) (flog : option sink) (start_time : F)
    (stop : bool) (w w' : world) :
  wait_step mon flog start_time w = (Ret stop, w') ->
  exists r, script w = r :: script w'.
Proof.
  unfold wait_step. intros Hw.
  destruct (invoke None mon "wait" [] w) as [[event| |] w1] eqn:Hi;
    [| rewrite (bind_Raise _ _ _ _ _ Hi) in Hw; discriminate
     | rewrite (bind_Diverge _ _ _ _ Hi) in Hw; discriminate].
  rewrite (bind_Ret _ _ _ _ _ Hi) in Hw.
  apply invoke_Ret_inv in Hi as (r & rest & Hs & ->).
  exists r. rewrite Hs. f_equal.
  destruct event as [| | | | | | |ty id sv|id ts [v|]|ts s|ts p| |];
    try (injection Hw as _ <-; reflexivity).
  - unfold bind at 1 in Hw.
    rewrite print_interrupt_context_text in Hw. unfold write in Hw.
    cbv beta iota in Hw.
    unfold bind, ret in Hw. injection Hw as _ <-. reflexivity.
  - unfold print_watchpoint_event, log_watchpoint_event, print in Hw.
    destruct flog as [[|path]|]; unfold bind, orelse, ret, write in Hw;
      cbv beta iota in Hw; injection Hw as _ <-; reflexivity.
  - unfold bind at 1 in Hw. cbv beta iota in Hw.
    rewrite bind_write in Hw. cbv beta in Hw. rewrite bind_write in Hw. cbv beta in Hw.
    destruct (last_char s) as [c|]; [| discriminate].
    rewrite bind_orelse_Some in Hw.
    destruct (Ascii.eqb c newline).
    + injection Hw as _ <-. now rewrite !script_write.
    + rewrite bind_write in Hw. injection Hw as _ <-. now rewrite !script_write.
Qed.

(** [while_True], started on the pending replies, satisfies the equation of
    [while True: body] for a body that uses up a reply at every turn: the
    unfolding on the script never stops a loop that the source would run on. *)
Lemma while_True_unfold (body : M bool) (w : world) :
  (forall stop w0 w', body w0 = (Ret stop, w') -> exists r, script w0 = r :: script w') ->
  while_True body (script w) w
  = bind body (fun stop : bool =>
                 if stop then ret tt
                 else fun w' => while_True body (script w') w') w.
Proof.
  intros Hbody.
  assert (Hfix : forall pending,
             while_True body pending
             = bind body (fun stop : bool =>
                            if stop then ret tt
                            else match pending with
                                 | [] => diverge
                                 | _ :: pending' => while_True body pending'
                                 end)) by (now intros []).
  rewrite Hfix. unfold bind.
  destruct (body w) as [[[|]| |] w'] eqn:Hb; try reflexivity.
  destruct (Hbody _ _ _ Hb) as [r ->]. reflexivity.
Qed.

Lemma cmd_wait_loop (mon : value) (flog : option sink) (start_time : F) (w : world) :
  while_True (wait_step mon flog start_time) (script w) w
  = bind (wait_step mon flog start_time)
      (fun stop : bool =>
         if stop then ret tt
         else fun w' => while_True (wait_step mon flog start_time) (script w') w') w.
Proof.
  apply while_True_unfold. intros stop w0 w'. apply wait_step_consumes.
Qed.

(** *** The read-eval loop *)

Lemma except_Exception_outcome (m : M unit) (w : world) :
  match fst (except_Exception m w) with
  | Raise e => is_Exception e = false
  | _ => True
  end.
Proof.
  unfold except_Exception.
  destruct (m w) as [[[]|e|] w']; [exact I | | exact I].
  destruct (is_Exception e) eqn:He; [| exact He].
  unfold print. rewrite bind_write, write_Ret. exact I.
Qed.

Lemma except_Exception_caught (m : M unit) (e : exn) (w w1 : world) :
  m w = (Raise e, w1) -> is_Exception e = true ->
  except_Exception m w
  = (Ret tt, snd (print (format_exc e) (snd (print (type_str e) w1)))).
Proof.
  intros Hm He. unfold except_Exception. rewrite Hm, He.
  unfold print. now rewrite bind_write, write_Ret.
Qed.

Lemma interactive_Line (line : string) (stdin : list key) (w : world) :
  interactive (Line line :: stdin) w
  = bind (if skipped (strip line) then ret tt else execute (strip line))
         (fun _ => interactive stdin)
         (snd (print_noend (compose_prompt (active_mode w)) w)).
Proof. reflexivity. Qed.

Lemma interactive_ending (stdin : list key) (w : world) :
  ending None (fst (interactive stdin w)).
Proof.
  revert w. induction stdin as [|[line|] stdin IH]; intros w.
  - reflexivity.
  - rewrite interactive_Line.
    set (w0 := snd (print_noend _ w)). unfold bind.
    destruct (skipped (strip line)).
    + apply IH.
    + assert (Ho := except_Exception_outcome
                      (dispatch_all (split_on ";" (strip line))) w0).
      fold (execute (strip line)) in Ho.
      destruct (execute (strip line) w0) as [[[]|e|] w1]; simpl in *;
        [apply IH | exact Ho | exact I].
  - apply (IH (snd (print "" (snd (print_noend (compose_prompt (active_mode w)) w))))).
Qed.

(** C9, as the code has it.  In the interactive loop an exception of a class
    derived from [Exception], raised while the commands of a line are
    dispatched or run, is caught, its type and traceback are printed, and the
    loop goes on with the next input; an exception that is not an
    [Exception] (such as [KeyboardInterrupt]) is not caught and ends the
    loop.  A run of the console ends only at the end of the input, after the
    single line given with [--command], or by such an uncaught exception. *)
Theorem loop_survives_exceptions :
  (forall (line : string) (stdin : list key) (e : exn) (w w1 : world),
      skipped (strip line) = false ->
      dispatch_all (split_on ";" (strip line))
        (snd (print_noend (compose_prompt (active_mode w)) w)) = (Raise e, w1) ->
      if is_Exception e
      then interactive (Line line :: stdin) w
           = interactive stdin
               (snd (print (format_exc e) (snd (print (type_str e) w1))))
      else interactive (Line line :: stdin) w = (Raise e, w1)) /\
  (forall (args : arguments) (stdin : list key) (w : world),
      ending (command args) (fst (main args stdin w))).
Proof.
  split.
  - intros line stdin e w w1 Hsk Hd. rewrite interactive_Line, Hsk.
    destruct (is_Exception e) eqn:He.
    + unfold execute.
      now rewrite (bind_Ret _ _ _ _ _ (except_Exception_caught _ _ _ _ Hd He)).
    + apply bind_Raise. unfold execute, except_Exception. now rewrite Hd, He.
  - intros [[line|] stdio] stdin w; unfold main; simpl.
    + unfold bind at 1.
      destruct (match stdio with Some path => open_w path | None => ret Stdout end w)
        as [[console| |] w0] eqn:Ho;
        [| destruct stdio; discriminate | destruct stdio; discriminate].
      unfold bind at 1. cbv beta iota.
      destruct (skipped (strip line)); [exact I |].
      unfold bind.
      assert (Hx := except_Exception_outcome
                      (dispatch_all (split_on ";" (strip line)))
                      (set_CONSOLE_FILE console w0)).
      fold (execute (strip line)) in Hx.
      destruct (execute (strip line) (set_CONSOLE_FILE console w0)) as [[[]|e|] w1];
        simpl in *; [now exists line | exact Hx | exact I].
    + unfold bind at 1.
      destruct (match stdio with Some path => open_w path | None => ret Stdout end w)
        as [[console| |] w0] eqn:Ho;
        [| destruct stdio; discriminate | destruct stdio; discriminate].
      unfold bind at 1. cbv beta iota. apply interactive_ending.
Qed.

(** *** What the commands leave alone *)

Local Abbreviation keeps := (@keeps F).

Section Frame.

Variables mode mon eng : bool.

Lemma frame_refl (w : world) : frame mode mon eng w w.
Proof. now repeat split. Qed.

Lemma frame_trans (a b c : world) :
  frame mode mon eng a b -> frame mode mon eng b c -> frame mode mon eng a c.
Proof.
  intros (Hm & Ho & He) (Hm' & Ho' & He'). split; [| split]; intros E.
  - now rewrite (Hm' E), (Hm E).
  - now rewrite (Ho' E), (Ho E).
  - destruct (He' E) as [-> ->]. exact (He E).
Qed.

Lemma keeps_ret {A} (a : A) : keeps mode mon eng (ret a : M A).
Proof. intros w. apply frame_refl. Qed.

Lemma keeps_raise {A} (e : exn) : keeps mode mon eng (raise e : M A).
Proof. intros w. apply frame_refl. Qed.

Lemma keeps_diverge {A} : keeps mode mon eng (diverge : M A).
Proof. intros w. apply frame_refl. Qed.

Lemma keeps_read {A} (f : world -> A) :
  keeps mode mon eng (fun w : world => (Ret (f w), w)).
Proof. intros w. apply frame_refl. Qed.

Lemma keeps_bind {A B} (m : M A) (k : A -> M B) :
  keeps mode mon eng m -> (forall a, keeps mode mon eng (k a)) ->
  keeps mode mon eng (bind m k).
Proof.
  intros Hm Hk w. unfold bind. specialize (Hm w).
  destruct (m w) as [[a|e|] w1]; simpl in *; [| exact Hm | exact Hm].
  exact (frame_trans _ _ _ Hm (Hk a w1)).
Qed.

Lemma keeps_orelse {A} (o : option A) (e : exn) : keeps mode mon eng (orelse o e).
Proof. destruct o; [apply keeps_ret | apply keeps_raise]. Qed.

Lemma keeps_write (f : sink) (s : string) : keeps mode mon eng (write f s).
Proof. intros w. now destruct f. Qed.

Lemma keeps_print (s : string) : keeps mode mon eng (print s).
Proof. apply keeps_write. Qed.

Lemma keeps_print_noend (s : string) : keeps mode mon eng (print_noend s).
Proof. apply keeps_write. Qed.

Lemma keeps_open_w (path : string) : keeps mode mon eng (open_w path).
Proof. intros w. now repeat split. Qed.

Lemma keeps_time_time : keeps mode mon eng time_time.
Proof. intros w. apply frame_refl. Qed.

Lemma keeps_except_KeyboardInterrupt (m : M unit) :
  keeps mode mon eng m -> keeps mode mon eng (except_KeyboardInterrupt m).
Proof.
  intros Hm w. unfold except_KeyboardInterrupt. specialize (Hm w).
  destruct (m w) as [[a|[]|] w1]; exact Hm.
Qed.

Lemma keeps_except_Exception (m : M unit) :
  keeps mode mon eng m -> keeps mode mon eng (except_Exception m).
Proof.
  intros Hm w. unfold except_Exception. specialize (Hm w).
  destruct (m w) as [[a|e|] w1]; simpl in *; try exact Hm.
  destruct (is_Exception e); [| exact Hm].
  refine (frame_trans _ _ _ Hm _).
  apply (keeps_bind (print (type_str e)) (fun _ => print (format_exc e)));
    [apply keeps_print | intros _; apply keeps_print].
Qed.

Lemma keeps_match_keyword_from (found : option string) (part : string)
    (words : list string) :
  keeps mode mon eng (match_keyword_from found part words).
Proof.
  revert found. induction words as [|word words IH]; intros found; simpl.
  - apply keeps_ret.
  - destruct (startswith word part); [| apply IH].
    destruct found; [apply keeps_raise | apply IH].
Qed.

Lemma keeps_match_keyword (part : string) (words : list string) :
  keeps mode mon eng (match_keyword part words).
Proof. apply keeps_match_keyword_from. Qed.

Lemma keeps_while_True (body : M bool) (pending : list reply) :
  keeps mode mon eng body -> keeps mode mon eng (while_True body pending).
Proof.
  intros Hb. induction pending as [|r pending IH]; simpl;
    (apply keeps_bind; [exact Hb | intros [|]; [apply keeps_ret |]]);
    [apply keeps_diverge | exact IH].
Qed.

Lemma keeps_invoke_None (out : option sink) (name : string) (args : list value) :
  keeps mode mon eng (invoke out VNone name args).
Proof. apply keeps_raise. Qed.

End Frame.

(** Setting a global is allowed where the frame does not hold it. *)
Lemma keeps_set_active_mode (mon eng b : bool) :
  keeps false mon eng (fun w : world => (Ret tt, set_active_mode b w)).
Proof. intros w. now repeat split. Qed.

Lemma keeps_set_monitor (mode eng : bool) (m : value) :
  keeps mode false eng (fun w : world => (Ret tt, set_monitor m w)).
Proof. intros w. now repeat split. Qed.

Lemma keeps_deliver (mode mon : bool) (out : option sink) (r : reply) :
  keeps mode mon false (deliver out r).
Proof.
  induction r as [v|e|data r IH]; simpl.
  - apply keeps_ret.
  - apply keeps_raise.
  - destruct out; [| exact IH].
    apply keeps_bind; [apply keeps_write | intros _; exact IH].
Qed.

Lemma keeps_external (mode mon : bool) (out : option sink) (c : call) :
  keeps mode mon false (external out c).
Proof.
  intros w. unfold external. destruct (script w) as [|r rest].
  - now repeat split.
  - refine (frame_trans _ _ _ _ _ _ _ (keeps_deliver mode mon out r _)).
    now repeat split.
Qed.

Lemma keeps_invoke (mode mon : bool) (out : option sink) (m : value) (name : string)
    (args : list value) :
  keeps mode mon false (invoke out m name args).
Proof. destruct m; try apply keeps_raise. apply keeps_external. Qed.

Lemma keeps_wait_loop (mode mon eng : bool) (body : M bool) :
  keeps mode mon eng body ->
  keeps mode mon eng (fun w : world => while_True body (script w) w).
Proof. intros Hb w. exact (keeps_while_True mode mon eng body (script w) Hb w). Qed.

Ltac frame_step :=
  first
    [ apply keeps_ret | apply keeps_raise | apply keeps_diverge
    | apply keeps_orelse | apply keeps_write | apply keeps_print
    | apply keeps_print_noend | apply keeps_open_w | apply keeps_time_time
    | apply keeps_match_keyword | apply keeps_invoke | apply keeps_invoke_None
    | apply keeps_external | apply keeps_set_active_mode | apply keeps_set_monitor
    | apply keeps_except_KeyboardInterrupt | apply keeps_wait_loop
    | apply keeps_read
    | apply keeps_bind; [| intros ?; cbv beta]
    | match goal with
      | |- context [match ?x with _ => _ end] => destruct x
      end ].

Ltac frame_auto := repeat frame_step.

Lemma keeps_print_bytes (mode mon eng : bool) (items : list value) :
  keeps mode mon eng (print_bytes items).
Proof. induction items as [|byte items IH]; simpl; frame_auto. exact IH. Qed.

Lemma keeps_map_to_int (mode mon eng : bool) (tokens : list string) :
  keeps mode mon eng (map_to_int tokens).
Proof.
  induction tokens as [|t tokens IH]; simpl; unfold to_int; frame_auto; exact IH.
Qed.

Ltac unfold_commands :=
  unfold cmd_echo, cmd_sleep, cmd_attach, cmd_detach, cmd_power, cmd_sense, cmd_reset,
    cmd_stream, cmd_streamnp, do_stream, cmd_charge, cmd_discharge, cmd_int, cmd_cont,
    cmd_ebreak, cmd_break, cmd_watch, cmd_wait, wait_step, cmd_intctx, cmd_read,
    cmd_write, cmd_pc, cmd_secho, cmd_decho, cmd_replay, cmd_lset, cmd_lget, cmd_rset,
    cmd_rget, cmd_uart, cmd_payload, opt_float, print_interrupt_context,
    print_watchpoint_event, log_watchpoint_event, init_watchpoint_log.

(** Every function of the dispatch table, with what it may change: only the
    four commands that assign [active_mode] touch it, and not without an
    engine handle; only [cmd_attach] touches [monitor]; without an engine
    handle only [cmd_attach] and [cmd_sleep] make a call. *)
Lemma keeps_function (mode mon eng : bool) (name : string)
    (apply : value -> list string -> M unit) (m : value) (args : list string) :
  globals !! name = Some (Function apply) ->
  (mode = true ->
   m = VNone \/ ~ In name ["cmd_int"; "cmd_cont"; "cmd_ebreak"; "cmd_wait"]) ->
  (mon = true -> name <> "cmd_attach") ->
  (eng = true -> m = VNone /\ name <> "cmd_attach" /\ name <> "cmd_sleep") ->
  keeps mode mon eng (apply m args).
Proof.
  intros Hg Hmode Hmon Heng. unfold globals in Hg.
  apply elem_of_list_to_map_2 in Hg.
  repeat (apply elem_of_cons in Hg as [Hg | Hg]);
    try (apply elem_of_nil in Hg; contradiction);
    try discriminate Hg;
    injection Hg as -> ->;
    (destruct eng;
     [ destruct (Heng eq_refl) as (-> & Ha & Hs);
       try (exfalso; now apply Ha); try (exfalso; now apply Hs)
     | clear Heng ]);
    (destruct mode;
     [ destruct (Hmode eq_refl) as [Hv | Hn];
       [ try subst m | try (exfalso; apply Hn; simpl; tauto) ]
     | clear Hmode ]);
    (destruct mon; [try (exfalso; now apply (Hmon eq_refl)) | clear Hmon]);
    unfold_commands; frame_auto;
    solve [ apply keeps_print_bytes | apply keeps_map_to_int ].
Qed.

Lemma cmd_name_inj (cmd name : string) : "cmd_" +:+ cmd = "cmd_" +:+ name -> cmd = name.
Proof. apply String.app_inj. Qed.

Lemma dispatch_frame (mode mon eng : bool) (cmd_line : string) (w : world) :
  (forall cmd, head (split cmd_line) = Some cmd ->
     (mode = true -> eng = true \/ ~ In cmd ["int"; "cont"; "ebreak"; "wait"]) /\
     (mon = true -> cmd <> "attach") /\
     (eng = true -> monitor w = VNone /\ cmd <> "attach" /\ cmd <> "sleep")) ->
  frame mode mon eng w (snd (dispatch cmd_line w)).
Proof.
  intros Hc. unfold dispatch.
  destruct (split cmd_line) as [|cmd args]; [apply frame_refl |].
  destruct (Hc cmd eq_refl) as (Hmode & Hmon & Heng).
  cbn [head tail]. rewrite bind_orelse_Some.
  destruct (globals !! ("cmd_" +:+ cmd)) as [[apply|]|] eqn:Hg;
    [| apply frame_refl | apply frame_refl].
  rewrite bind_orelse_Some. unfold bind. cbv beta iota.
  apply (keeps_function mode mon eng ("cmd_" +:+ cmd) apply (monitor w) args Hg).
  - intros E. destruct (Hmode E) as [Ee | Hn];
      [left; now destruct (Heng Ee) | right].
    intros Hin. apply Hn. simpl in Hin. simpl.
    destruct Hin as [Hin | [Hin | [Hin | [Hin | []]]]];
      apply (cmd_name_inj _ _) in Hin; tauto.
  - intros E Hn. apply (Hmon E). now apply cmd_name_inj.
  - intros E. destruct (Heng E) as (Hv & Ha & Hs). split; [exact Hv |].
    split; intros Hn; [apply Ha | apply Hs]; now apply cmd_name_inj.
Qed.

Lemma dispatch_all_frame (mode mon eng : bool) (cmd_lines : list string) (w : world) :
  (forall cmd, In cmd (omap (fun cmd_line => head (split cmd_line)) cmd_lines) ->
     (mode = true -> eng = true \/ ~ In cmd ["int"; "cont"; "ebreak"; "wait"]) /\
     (mon = true -> cmd <> "attach") /\
     (eng = true -> mon = true /\ monitor w = VNone /\ cmd <> "attach" /\ cmd <> "sleep")) ->
  frame mode mon eng w (snd (dispatch_all cmd_lines w)).
Proof.
  revert w. induction cmd_lines as [|cmd_line cmd_lines IH]; intros w Hc;
    [apply frame_refl |].
  simpl. unfold bind.
  assert (Hd : frame mode mon eng w (snd (dispatch cmd_line w))).
  { apply dispatch_frame. intros cmd Hh.
    destruct (Hc cmd) as (Hmode & Hmon & Heng); [simpl; rewrite Hh; now left |].
    repeat split; auto; now destruct (Heng H) as (_ & ? & ? & ?). }
  destruct (dispatch cmd_line w) as [[[]|e|] w1]; simpl in *; try exact Hd.
  refine (frame_trans _ _ _ _ _ _ Hd (IH w1 _)).
  intros cmd Hin.
  destruct (Hc cmd) as (Hmode & Hmon & Heng);
    [simpl; destruct (head (split cmd_line)); [right |]; exact Hin |].
  repeat split; auto; destruct (Heng H) as (Em & Hv & Ha & Hs); auto.
  destruct Hd as (_ & Hk & _). now rewrite (Hk Em).
Qed.

Lemma execute_frame (mode mon eng : bool) (line : string) (w : world) :
  (forall cmd, In cmd (command_words line) ->
     (mode = true -> eng = true \/ ~ In cmd ["int"; "cont"; "ebreak"; "wait"]) /\
     (mon = true -> cmd <> "attach") /\
     (eng = true -> mon = true /\ monitor w = VNone /\ cmd <> "attach" /\ cmd <> "sleep")) ->
  frame mode mon eng w (snd (execute line w)).
Proof.
  intros Hc. unfold execute.
  assert (Hd := dispatch_all_frame mode mon eng (split_on ";" line) w Hc).
  unfold except_Exception.
  destruct (dispatch_all (split_on ";" line) w) as [[[]|e|] w1]; simpl in *;
    try exact Hd.
  destruct (is_Exception e); [| exact Hd].
  refine (frame_trans _ _ _ _ _ _ Hd _).
  apply (keeps_bind mode mon eng (print (type_str e)) (fun _ => print (format_exc e)));
    [apply keeps_print | intros _; apply keeps_print].
Qed.

(** X1.  Only [attach] assigns the global [monitor]: a line none of whose
    commands is [attach] leaves [monitor] as it was, whatever the commands do
    and however they end.  In particular [detach] destroys the engine handle
    but does not clear [monitor]. *)
Theorem execute_keeps_monitor (line : string) (w : world) :
  ~ In "attach" (command_words line) ->
  monitor (snd (execute line w)) = monitor w.
Proof.
  intros Hn.
  destruct (execute_frame false true false line w) as (_ & Hm & _); [| now apply Hm].
  intros cmd Hin. repeat split; try discriminate. intros _ ->. now apply Hn.
Qed.

(** X2.  Only [int], [cont], [ebreak] and [wait] assign [active_mode]: a
    line with none of these commands leaves the flag as it was. *)
Theorem execute_keeps_active_mode (line : string) (w : world) :
  (forall cmd, In cmd (command_words line) ->
               ~ In cmd ["int"; "cont"; "ebreak"; "wait"]) ->
  active_mode (snd (execute line w)) = active_mode w.
Proof.
  intros Hn.
  destruct (execute_frame true false false line w) as (Hm & _); [| now apply Hm].
  intros cmd Hin. repeat split; try discriminate. intros _. right. now apply Hn.
Qed.


(** *** Lines that run nothing *)

Lemma rev_app_append (s acc : string) :
  String.rev_app s acc = String.rev_app s "" +:+ acc.
Proof.
  revert acc. induction s as [|c s IH]; intros acc; [reflexivity |].
  simpl. rewrite (IH (String c acc)), (IH (String c "")).
  now rewrite append_assoc.
Qed.

Lemma rev_cons (c : ascii) (s : string) :
  String.rev (String c s) = String.rev s +:+ String c "".
Proof. unfold String.rev. simpl. apply rev_app_append. Qed.

Lemma rev_append (a b : string) :
  String.rev (a +:+ b) = String.rev b +:+ String.rev a.
Proof.
  induction a as [|c a IH]; [now rewrite append_nil_l, append_nil_r |].
  now rewrite append_cons, !rev_cons, IH, append_assoc.
Qed.

Lemma lstrip_snoc (a : string) (c : ascii) :
  isspace c = false -> exists t, lstrip (a +:+ String c "") = t +:+ String c "".
Proof.
  intros Hc. induction a as [|x a IH].
  - exists "". rewrite append_nil_l. simpl. now rewrite Hc.
  - rewrite append_cons. simpl. destruct (isspace x); [exact IH |].
    exists (String x a). now rewrite append_cons.
Qed.

Lemma blank_or_comment_skipped (line : string) :
  blank_or_comment line -> skipped (strip line) = true.
Proof.
  unfold strip. intros [-> | [rest ->]]; [reflexivity |].
  rewrite rev_cons.
  destruct (lstrip_snoc (String.rev rest) "#" eq_refl) as [t ->].
  rewrite rev_append. unfold skipped, startswith.
  change (String.rev "#") with "#". rewrite append_cons, append_nil_l.
  replace (String.prefix "#" (String "#" (String.rev t))) with true;
    [apply orb_true_r |].
  unfold String.prefix. destruct (ascii_dec "#" "#"); [| congruence].
  now destruct (String.rev t).
Qed.

(** X4.  At the prompt, a line of white space only, a line whose first
    non-blank character is [#], and Ctrl-C run nothing: the loop goes on to
    the next input with the world as it was, but for the prompt (and the
    line feed after Ctrl-C) on standard output. *)
Theorem prompt_skips (line : string) (stdin : list key) (w : world) :
  let prompted := snd (print_noend (compose_prompt (active_mode w)) w) in
  (blank_or_comment line ->
   interactive (Line line :: stdin) w = interactive stdin prompted) /\
  interactive (CtrlC :: stdin) w = interactive stdin (snd (print "" prompted)).
Proof.
  cbv zeta. split; [| reflexivity].
  intros Hb. rewrite interactive_Line, (blank_or_comment_skipped _ Hb).
  reflexivity.
Qed.


(** *** Commands on one line *)

Lemma split_on_first (sep : ascii) (first rest : string) :
  contains sep first = false ->
  split_on sep (first +:+ String sep rest) = first :: split_on sep rest.
Proof.
  induction first as [|c first IH]; intros Hc.
  - change ("" +:+ String sep rest) with (String sep rest).
    simpl. now rewrite Ascii.eqb_refl.
  - simpl in Hc. apply orb_false_iff in Hc as [Hc Hf].
    change (String c first +:+ String sep rest)
      with (String c (first +:+ String sep rest)).
    simpl. rewrite Ascii.eqb_sym, Hc. now rewrite (IH Hf).
Qed.

(** X6.  The commands of a line run from left to right, and the first one
    that raises an [Exception] ends the line: it is reported, and the
    commands after it on the line are not run. *)
Theorem semicolon_sequence (first rest : string) (w w1 : world) :
  contains ";" first = false ->
  (dispatch first w = (Ret tt, w1) ->
   execute (first +:+ ";" +:+ rest) w = execute rest w1) /\
  (forall e, dispatch first w = (Raise e, w1) -> is_Exception e = true ->
   execute (first +:+ ";" +:+ rest) w
   = (Ret tt, snd (print (format_exc e) (snd (print (type_str e) w1))))).
Proof.
  intros Hc. unfold execute.
  change (";" +:+ rest) with (String ";" rest).
  rewrite (split_on_first _ _ _ Hc). split.
  - intros Hd. unfold except_Exception. simpl dispatch_all.
    now rewrite (bind_Ret _ _ _ _ _ Hd).
  - intros e Hd He. apply except_Exception_caught; [| exact He].
    simpl dispatch_all. now apply bind_Raise.
Qed.

(** *** Commands that cannot be dispatched *)

Lemma lstrip_blank_split (s : string) : lstrip s = "" -> split s = [].
Proof.
  unfold split. induction s as [|c s IH]; [reflexivity |].
  simpl. destruct (isspace c); [| discriminate]. exact IH.
Qed.

Lemma globals_unknown (cmd : string) :
  ~ In cmd command_names -> ~ In cmd variable_names ->
  globals !! ("cmd_" +:+ cmd) = None.
Proof.
  intros Hc Hv. unfold globals. apply not_elem_of_list_to_map. simpl.
  intros Hin.
  repeat (apply elem_of_cons in Hin as [Hin | Hin];
          [apply (cmd_name_inj _ _) in Hin; subst cmd;
           first [apply Hc; simpl; tauto | apply Hv; simpl; tauto] |]).
  now apply elem_of_nil in Hin.
Qed.

(** X7.  What [dispatch] does with a command it cannot run, in each case
    before anything else happens: an empty command (as after a trailing
    semicolon) raises [IndexError]; a first word that is no command raises
    [KeyError]; and the words [hist_file], [lines] and [line] find the
    module's own variables [cmd_hist_file], [cmd_lines] and [cmd_line],
    which cannot be called: [TypeError]. *)
Theorem dispatch_errors (cmd_line : string) (w : world) :
  (lstrip cmd_line = "" -> dispatch cmd_line w = (Raise IndexError, w)) /\
  (forall cmd args,
      split cmd_line = cmd :: args ->
      ~ In cmd command_names -> ~ In cmd variable_names ->
      dispatch cmd_line w = (Raise KeyError, w)) /\
  (forall cmd args,
      split cmd_line = cmd :: args -> In cmd variable_names ->
      dispatch cmd_line w = (Raise TypeError, w)).
Proof.
  split; [| split].
  - intros Hb. unfold dispatch. now rewrite (lstrip_blank_split _ Hb).
  - intros cmd args Hs Hc Hv. unfold dispatch. rewrite Hs. cbn [head tail].
    rewrite bind_orelse_Some, (globals_unknown _ Hc Hv). reflexivity.
  - intros cmd args Hs Hv. unfold dispatch. rewrite Hs. cbn [head tail].
    rewrite bind_orelse_Some.
    destruct Hv as [<- | [<- | [<- | []]]]; reflexivity.
Qed.

(** *** Waiting: cancellation, errors and starvation *)

(** The loop run over events that pass: it arrives, with their renderings
    written, at the replies that follow. *)
Lemma while_True_skip (mon : value) (dev : string) (ul : option string)
    (flog : option sink) (start_time : F) (before : list value) (next : list reply)
    (w : world) :
  mon = EDB dev ul ->
  forallb passes before = true ->
  script w = map Returns before ++ next ->
  let w' := emit (concat (map (rendering (CONSOLE_FILE w) flog start_time) before))
                 (set_engine (calls w ++ repeat (Call "mon.wait" []) (length before))
                             next w) in
  while_True (wait_step mon flog start_time) (script w) w
  = while_True (wait_step mon flog start_time) next w'.
Proof.
  intros ->. revert w. induction before as [|event before IH]; intros w Hp Hs; cbv zeta.
  - simpl in *. rewrite app_nil_r. rewrite Hs. f_equal.
    destruct w; simpl in *; now subst.
  - simpl in Hp. apply andb_true_iff in Hp as [Hp Hps].
    simpl in Hs. rewrite Hs at 1. simpl while_True.
    rewrite (bind_Ret _ _ _ _ _ (wait_step_passes _ _ _ _ _ _ _ Hp Hs)).
    cbv iota.
    set (rest := map Returns before ++ _) in *.
    set (w1 := set_engine _ rest w).
    set (w2 := emit _ w1).
    destruct (emit_frame (rendering (CONSOLE_FILE w) flog start_time event) w1)
      as (_ & Hcf & _ & Hcs & Hsc).
    fold w2 in Hcf, Hcs, Hsc.
    assert (Hs2 : script w2 = rest) by (now rewrite Hsc).
    rewrite <- Hs2 at 1. rewrite (IH w2 Hps Hs2). cbv zeta.
    f_equal. rewrite Hcf, Hcs. subst w2 w1. simpl.
    rewrite emit_app, !emit_set_engine. simpl.
    now rewrite <- app_assoc.
Qed.

Lemma cmd_wait_opened (mon : value) (log_file : option string) (w : world) :
  cmd_wait mon log_file w
  = except_KeyboardInterrupt
      (fun w0 : world =>
         while_True (wait_step mon (File <$> log_file) (clock w0)) (script w0) w0)
      (opened log_file w).
Proof.
  unfold cmd_wait. destruct log_file as [path|]; [| reflexivity].
  unfold bind at 1. unfold bind at 1. unfold open_w.
  unfold bind at 1. unfold init_watchpoint_log, write. cbv beta iota.
  unfold ret at 1. cbv beta iota. unfold opened, set_files. simpl.
  now rewrite lookup_insert_eq, insert_insert_eq, append_nil_l.
Qed.

Lemma cmd_wait_skip (dev : string) (ul log_file : option string) (before : list value)
    (next : list reply) (w : world) :
  forallb passes before = true ->
  script w = map Returns before ++ next ->
  cmd_wait (EDB dev ul) log_file w
  = except_KeyboardInterrupt
      (while_True (wait_step (EDB dev ul) (File <$> log_file) (clock w)) next)
      (waited log_file before next w).
Proof.
  intros Hp Hs. rewrite cmd_wait_opened. unfold except_KeyboardInterrupt.
  assert (Hs' : script (opened log_file w) = map Returns before ++ next)
    by (now destruct log_file).
  rewrite (while_True_skip _ dev ul _ _ before next _ eq_refl Hp Hs'). cbv zeta.
  unfold waited. now destruct log_file.
Qed.

Lemma waited_frame (log_file : option string) (before : list value) (next : list reply)
    (w : world) :
  active_mode (waited log_file before next w) = active_mode w /\
  script (waited log_file before next w) = next /\
  calls (waited log_file before next w)
  = calls w ++ repeat (Call "mon.wait" []) (length before).
Proof.
  unfold waited.
  match goal with |- context [emit ?ws ?w0] =>
    destruct (emit_frame ws w0) as (-> & _ & _ & -> & ->) end.
  now destruct log_file.
Qed.

Lemma wait_step_Raises (dev : string) (ul : option string) (flog : option sink)
    (start_time : F) (e : exn) (rest : list reply) (w : world) :
  script w = Raises e :: rest ->
  wait_step (EDB dev ul) flog start_time w
  = (Raise e, set_engine (calls w ++ [Call "mon.wait" []]) rest w).
Proof.
  intros Hs. unfold wait_step, bind, invoke, external. now rewrite Hs.
Qed.

(** X8.  [cmd_wait] and an exception out of [wait()]: after events that
    pass, a [KeyboardInterrupt] is absorbed and the command returns normally;
    any other exception is raised to the caller.  Either way the events
    before it have been rendered, the replies after it are unread, and
    [active_mode] is what it was. *)
Theorem cmd_wait_raised (dev : string) (ul log_file : option string)
    (before : list value) (e : exn) (after : list reply) (w : world) :
  forallb passes before = true ->
  script w = map Returns before ++ Raises e :: after ->
  let w' := set_engine (calls w ++ repeat (Call "mon.wait" []) (S (length before))) after
              (waited log_file before (Raises e :: after) w) in
  cmd_wait (EDB dev ul) log_file w
  = (match e with KeyboardInterrupt => Ret tt | _ => Raise e end, w') /\
  active_mode w' = active_mode w.
Proof.
  intros Hp Hs. cbv zeta. rewrite (cmd_wait_skip _ _ _ _ _ _ Hp Hs).
  destruct (waited_frame log_file before (Raises e :: after) w) as (Ha & Hsc & Hc).
  split; [| exact Ha].
  unfold except_KeyboardInterrupt. simpl while_True.
  rewrite (bind_Raise _ _ _ _ _ (wait_step_Raises _ _ _ _ _ _ _ Hsc)).
  rewrite Hc, <- app_assoc, <- repeat_cons.
  destruct e; reflexivity.
Qed.

(** X9.  [cmd_wait] does not come back by itself: when every reply is an
    event that passes and no interrupt context is among them, the events are
    rendered, one more [wait()] is called, and the command blocks on it. *)
Theorem cmd_wait_starved (dev : string) (ul log_file : option string)
    (events : list value) (w : world) :
  forallb passes events = true ->
  script w = map Returns events ->
  cmd_wait (EDB dev ul) log_file w
  = (Diverge,
     set_engine (calls w ++ repeat (Call "mon.wait" []) (S (length events))) []
       (waited log_file events [] w)).
Proof.
  intros Hp Hs. rewrite <- (app_nil_r (map Returns events)) in Hs.
  rewrite (cmd_wait_skip _ _ _ _ _ _ Hp Hs).
  destruct (waited_frame log_file events [] w) as (Ha & Hsc & Hc).
  unfold except_KeyboardInterrupt. simpl while_True.
  unfold bind, wait_step, bind, invoke, external. rewrite Hsc, Hc.
  now rewrite <- app_assoc, <- repeat_cons.
Qed.

(** *** The watchpoint log *)

Lemma content_emit (f : sink) (writes : list (sink * string)) (w : world) :
  content f (emit writes w) = content f w +:+ texts_for f writes.
Proof.
  revert w. induction writes as [|[g s] writes IH]; intros w.
  - now rewrite append_nil_r.
  - change (emit ((g, s) :: writes) w) with (emit writes (snd (write g s w))).
    rewrite IH. destruct f as [|p], g as [|q]; simpl.
    + now rewrite append_assoc.
    + reflexivity.
    + reflexivity.
    + destruct (String.eqb p q) eqn:E.
      * apply String.eqb_eq in E. subst q.
        rewrite lookup_insert_eq. simpl. now rewrite append_assoc.
      * apply String.eqb_neq in E. rewrite lookup_insert_ne by congruence.
        reflexivity.
Qed.

Lemma texts_for_app (f : sink) (a b : list (sink * string)) :
  texts_for f (a ++ b) = texts_for f a +:+ texts_for f b.
Proof.
  induction a as [|[g s] a IH]; [reflexivity |].
  simpl. destruct f as [|p], g as [|q]; try exact IH.
  - now rewrite IH, append_assoc.
  - destruct (String.eqb p q); [now rewrite IH, append_assoc | exact IH].
Qed.

Lemma log_texts (log_file : string) (console : sink) (start_time : F)
    (events : list value) :
  console <> File log_file ->
  forallb passes events = true ->
  texts_for (File log_file)
    (concat (map (rendering console (Some (File log_file)) start_time) events))
  = log_rows events.
Proof.
  intros Hc. induction events as [|event events IH]; [reflexivity |].
  intros Hp. simpl in Hp. apply andb_true_iff in Hp as [Hp Hps].
  simpl concat. rewrite texts_for_app, (IH Hps).
  destruct event as [| | | | | | | |id ts [v|]|ts s|ts p| |]; try discriminate; simpl.
  - now rewrite String.eqb_refl, append_nil_r, !append_assoc.
  - destruct console as [|q]; [reflexivity |].
    destruct (String.eqb log_file q) eqn:E; [| reflexivity].
    apply String.eqb_eq in E. now subst q.
  - reflexivity.
Qed.

(** X10.  The watchpoint log after a wait that ends at an interrupt
    context: whatever the file held before is gone, and it holds the header
    row followed by one row per watchpoint event, in arrival order, and
    nothing for the other events (the log not being the file that relayed
    output goes to). *)
Theorem watchpoint_log_rows (dev type log_file : string) (ul : option string)
    (before : list value) (id : Z) (saved_vcap : option F) (after : list reply)
    (w : world) :
  CONSOLE_FILE w <> File log_file ->
  forallb passes before = true ->
  script w = map Returns before ++ Returns (InterruptContext type id saved_vcap) :: after ->
  content (File log_file) (snd (cmd_wait (EDB dev ul) (Some log_file) w))
  = "id,timestamp,vcap" +:+ nl +:+ log_rows before.
Proof.
  intros Hc Hp Hs. rewrite cmd_wait_opened.
  assert (Hs' : script (opened (Some log_file) w)
                = map Returns before ++ Returns (InterruptContext type id saved_vcap) :: after)
    by exact Hs.
  unfold except_KeyboardInterrupt.
  rewrite (while_True_in_order _ _ _ _ _ _ _ _ _ _ Hp Hs').
  cbv beta iota. unfold snd.
  change (content (File log_file) (set_active_mode true ?x))
    with (content (File log_file) x).
  rewrite emit_set_engine.
  change (content (File log_file) (set_engine ?c ?r ?x))
    with (content (File log_file) x).
  rewrite content_emit, map_app, concat_app, texts_for_app.
  change (CONSOLE_FILE (opened (Some log_file) w)) with (CONSOLE_FILE w).
  rewrite (log_texts _ _ _ _ Hc Hp). simpl.
  rewrite lookup_insert_eq, append_nil_r. simpl. apply append_assoc.
Qed.

(** *** Streaming: arguments and engine errors *)


(** X12.  An exception of the engine's [stream] other than
    [KeyboardInterrupt] is not absorbed: [do_stream] raises it, and the
    destination file holds what the engine had written until then. *)
Theorem do_stream_engine_error (dev out_file duration_sec : string) (ul : option string)
    (streams : list string) (no_parse : bool) (r : reply) (e : exn)
    (rest : list reply) (w : world) :
  duration_sec = "-" \/ is_Some (float_of_str duration_sec) ->
  out_file <> "-" ->
  script w = r :: rest ->
  result r = Raises e ->
  e <> KeyboardInterrupt ->
  let run := do_stream (EDB dev ul) out_file duration_sec streams no_parse w in
  fst run = Raise e /\
  files (snd run) = <[out_file := written r]> (files w) /\
  stdout (snd run) = stdout w /\
  active_mode (snd run) = active_mode w.
Proof.
  intros Hd Ho Hs Hr He. cbv zeta.
  destruct (do_stream (EDB dev ul) out_file duration_sec streams no_parse w)
    as [o wf] eqn:Hrun.
  unfold do_stream in Hrun.
  set (duration := if String.eqb duration_sec "-" then ret VNone else _) in Hrun.
  assert (Hdur : exists d, duration w = (Ret d, w)).
  { subst duration. destruct Hd as [-> | [x Hx]]; [now exists VNone |].
    destruct (String.eqb duration_sec "-"); [now exists VNone |].
    rewrite Hx. now exists (VFloat x). }
  destruct Hdur as [d Hdur]. rewrite (bind_Ret _ _ _ _ _ Hdur) in Hrun.
  apply String.eqb_neq in Ho. rewrite Ho in Hrun.
  unfold bind at 1 in Hrun. simpl in Hrun.
  unfold except_KeyboardInterrupt, bind, invoke, external in Hrun.
  simpl in Hrun. rewrite Hs in Hrun.
  match type of Hrun with context [deliver (Some (File out_file)) r ?w0] =>
    destruct (deliver_cancelled (File out_file) r _ w0 Hr) as (Hf & Ha & _ & _ & Hout & Hfs);
    destruct (deliver (Some (File out_file)) r w0) as [o' w'] end.
  simpl in *. subst o'.
  assert (Hrun' : (Raise e, w') = (o, wf)) by (now destruct e).
  injection Hrun' as <- <-.
  split; [reflexivity |]. split; [| split; assumption].
  rewrite (Hfs "") by apply lookup_insert_eq.
  now rewrite insert_insert_eq.
Qed.

(** *** Leaving and entering debug mode *)

(** The shape shared by [cmd_cont] and [cmd_ebreak]: one blocking engine
    call whose value is printed after [label] and after which [active_mode]
    is set to [flag]. *)
Lemma mode_command (name label : string) (args : list value) (flag : bool)
    (mon : value) (w : world) :
  let cmd :=
    bind (invoke None mon name args)
      (fun vcap => bind (orelse (float_operand vcap) TypeError)
         (fun v => bind (print (label +:+ float_fixed 4 v))
            (fun _ (w : world) => (Ret tt, set_active_mode flag w)))) in
  (forall vcap v w1,
      invoke None mon name args w = (Ret vcap, w1) ->
      float_operand vcap = Some v ->
      cmd w = (Ret tt, set_active_mode flag
                         (set_stdout (stdout w1 +:+ label +:+ float_fixed 4 v +:+ nl) w1))) /\
  (forall e w1,
      invoke None mon name args w = (Raise e, w1) ->
      cmd w = (Raise e, w1) /\ active_mode w1 = active_mode w) /\
  (forall vcap w1,
      invoke None mon name args w = (Ret vcap, w1) ->
      float_operand vcap = None ->
      cmd w = (Raise TypeError, w1) /\ active_mode w1 = active_mode w).
Proof.
  cbv zeta. split; [| split].
  - intros vcap v w1 Hi Hv. rewrite (bind_Ret _ _ _ _ _ Hi), Hv.
    unfold bind, orelse, ret, print, write. simpl.
    unfold set_stdout. simpl. now rewrite append_assoc.
  - intros e w1 Hi. rewrite (bind_Raise _ _ _ _ _ Hi). split; [reflexivity |].
    now destruct (invoke_frame _ _ _ _ _ _ Hi) as (cs & rs & ->).
  - intros vcap w1 Hi Hv. rewrite (bind_Ret _ _ _ _ _ Hi), Hv.
    split; [reflexivity |].
    now destruct (invoke_frame _ _ _ _ _ _ Hi) as (cs & rs & ->).
Qed.

(** X13.  [cmd_cont]: when [exit_debug_mode()] returns a voltage it is
    printed and [active_mode] is turned off.  Unlike [cmd_int], the command
    absorbs nothing: every exception of the engine, [KeyboardInterrupt]
    included, is raised to the caller with [active_mode] unchanged; and a
    returned value that is not a number raises [TypeError], again with
    [active_mode] unchanged. *)
Theorem cmd_cont_outcome (mon : value) (w : world) :
  (forall vcap v w1,
      invoke None mon "exit_debug_mode" [] w = (Ret vcap, w1) ->
      float_operand vcap = Some v ->
      cmd_cont mon w
      = (Ret tt, set_active_mode false
                   (set_stdout (stdout w1 +:+ "Vcap_restored = " +:+ float_fixed 4 v +:+ nl)
                      w1))) /\
  (forall e w1,
      invoke None mon "exit_debug_mode" [] w = (Raise e, w1) ->
      cmd_cont mon w = (Raise e, w1) /\ active_mode w1 = active_mode w) /\
  (forall vcap w1,
      invoke None mon "exit_debug_mode" [] w = (Ret vcap, w1) ->
      float_operand vcap = None ->
      cmd_cont mon w = (Raise TypeError, w1) /\ active_mode w1 = active_mode w).
Proof. exact (mode_command "exit_debug_mode" "Vcap_restored = " [] false mon w). Qed.

(** X14.  [cmd_ebreak]: the target voltage must parse, else [ValueError]
    and no call; the implementation name is passed in upper case; when
    [break_at_vcap_level] returns a voltage it is printed and [active_mode]
    is turned on; an exception of the engine, [KeyboardInterrupt] included,
    is raised to the caller with [active_mode] unchanged. *)
Theorem cmd_ebreak_outcome (mon : value) (target_voltage impl : string) (w : world) :
  (float_of_str target_voltage = None ->
   cmd_ebreak mon target_voltage impl w = (Raise ValueError, w)) /\
  (forall x,
      float_of_str target_voltage = Some x ->
      let call := invoke None mon "break_at_vcap_level" [VFloat x; VStr (upper impl)] in
      (forall vcap v w1,
          call w = (Ret vcap, w1) -> float_operand vcap = Some v ->
          cmd_ebreak mon target_voltage impl w
          = (Ret tt, set_active_mode true
                       (set_stdout (stdout w1 +:+ "Vcap_saved = " +:+ float_fixed 4 v +:+ nl)
                          w1))) /\
      (forall e w1,
          call w = (Raise e, w1) ->
          cmd_ebreak mon target_voltage impl w = (Raise e, w1) /\
          active_mode w1 = active_mode w)).
Proof.
  split.
  - intros Hx. unfold cmd_ebreak. now rewrite Hx.
  - intros x Hx. cbv zeta. unfold cmd_ebreak. rewrite Hx, bind_orelse_Some.
    destruct (mode_command "break_at_vcap_level" "Vcap_saved = "
                [VFloat x; VStr (upper impl)] true mon w) as (Hok & Herr & _).
    split; [exact Hok | exact Herr].
Qed.

(** *** Keywords in any case *)

Lemma upper_char_idempotent (c : ascii) : upper_char (upper_char c) = upper_char c.
Proof. destruct c as [[] [] [] [] [] [] [] []]; reflexivity. Qed.

Lemma upper_idempotent (s : string) : upper (upper s) = upper s.
Proof.
  induction s as [|c s IH]; [reflexivity |].
  simpl. now rewrite upper_char_idempotent, IH.
Qed.

Lemma map_upper_idempotent (l : list string) : map upper (map upper l) = map upper l.
Proof.
  induction l as [|s l IH]; [reflexivity |].
  simpl. now rewrite upper_idempotent, IH.
Qed.

(** X15.  The keyword arguments are taken in any case: the breakpoint type
    of [break], the source of [intctx], the channel of [sense], the
    implementation of [ebreak] and the stream names of [stream] go through
    [upper], so giving them already in upper case changes nothing. *)
Theorem keywords_in_any_case (mon : value) :
  (forall type idx op energy_level,
      cmd_break mon (upper type) idx op energy_level
      = cmd_break mon type idx op energy_level) /\
  (forall source, cmd_intctx mon (upper source) = cmd_intctx mon source) /\
  (forall channel, cmd_sense mon (upper channel) = cmd_sense mon channel) /\
  (forall target_voltage impl,
      cmd_ebreak mon target_voltage (upper impl) = cmd_ebreak mon target_voltage impl) /\
  (forall out_file duration_sec streams no_parse,
      do_stream mon out_file duration_sec (map upper streams) no_parse
      = do_stream mon out_file duration_sec streams no_parse).
Proof.
  repeat split; intros;
    unfold cmd_break, cmd_intctx, cmd_sense, cmd_ebreak, do_stream;
    rewrite ?upper_idempotent, ?map_upper_idempotent; reflexivity.
Qed.

(** *** The vcap snapshot of a watchpoint *)

Lemma vcap_prefixes (s : string) :
  startswith "vcap" s = true <-> In s [""; "v"; "vc"; "vca"; "vcap"].
Proof.
  unfold startswith. split.
  - intros Hp. assert (Hl := prefix_length _ _ Hp).
    apply prefix_correct in Hp. rewrite <- Hp.
    change (String.length "vcap") with 4%nat in Hl.
    destruct (String.length s) as [|[|[|[|[|k]]]]]; cbn; tauto.
  - intros Hin. repeat (destruct Hin as [<- | Hin]; [reflexivity |]). destruct Hin.
Qed.

(** X16.  [watch]: the engine is asked for a vcap snapshot exactly when the
    third argument is a prefix of "vcap"; any other word, and the default
    "novcap" taken when the argument is left out, asks for none. *)
Theorem watch_snapshot (dev idx op : string) (ul : option string) (n : Z) (v : value)
    (rest : list reply) (w : world) :
  int10 idx = Some n ->
  script w = Returns v :: rest ->
  monitor w = EDB dev ul ->
  let called (snapshot : bool) :=
    (Ret tt, set_engine (calls w ++ [Call "mon.toggle_watchpoint"
                                       [VInt n; VBool (startswith "enable" op);
                                        VBool snapshot]]) rest w) in
  (forall vcap_snapshot,
      cmd_watch (EDB dev ul) idx op vcap_snapshot w
      = called (startswith "vcap" vcap_snapshot) /\
      (startswith "vcap" vcap_snapshot = true
       <-> In vcap_snapshot [""; "v"; "vc"; "vca"; "vcap"])) /\
  (forall cmd_line, split cmd_line = ["watch"; idx; op] ->
                    dispatch cmd_line w = called false).
Proof.
  intros Hn Hs Hm. cbv zeta.
  assert (Hw : forall snap,
             cmd_watch (EDB dev ul) idx op snap w
             = (Ret tt, set_engine (calls w ++ [Call "mon.toggle_watchpoint"
                                                  [VInt n; VBool (startswith "enable" op);
                                                   VBool (startswith "vcap" snap)]])
                          rest w)).
  { intros snap. unfold cmd_watch. rewrite Hn, bind_orelse_Some.
    now rewrite (bind_Ret _ _ _ _ _ (invoke_Returns _ _ _ _ _ _ _ _ Hs)). }
  split.
  - intros snap. split; [apply Hw | apply vcap_prefixes].
  - intros cmd_line Hc. unfold dispatch. rewrite Hc. cbn [head tail].
    rewrite bind_orelse_Some.
    change (globals !! ("cmd_" +:+ "watch")) with (globals !! "cmd_watch").
    replace (globals !! "cmd_watch")
      with (Some (Function (fun (mon : value) a =>
                    match a with
                    | [idx; op] => cmd_watch mon idx op "novcap"
                    | [idx; op; vcap_snapshot] => cmd_watch mon idx op vcap_snapshot
                    | _ => raise TypeError
                    end))) by reflexivity.
    rewrite bind_orelse_Some. unfold bind at 1. cbv beta iota. rewrite Hm.
    exact (Hw "novcap").
Qed.

(** *** The memory dump *)

Lemma print_bytes_hex (bytes : list Z) (w : world) :
  print_bytes (map VInt bytes) w = (Ret tt, set_stdout (stdout w +:+ hex_bytes bytes) w).
Proof.
  revert w. induction bytes as [|b bytes IH]; intros w.
  - simpl. rewrite append_nil_r. now destruct w.
  - change (print_bytes (map VInt (b :: bytes)) w)
      with (bind (print_noend ("0x" +:+ fmt_x 2 b))
              (fun _ => print_bytes (map VInt bytes)) w).
    unfold print_noend. rewrite bind_write, IH. simpl.
    unfold set_stdout. simpl. now rewrite !append_assoc.
Qed.

(** X17.  [read]: the address and the length are parsed (hexadecimal and
    decimal), [read_mem] is called once, and the pair it returns is printed
    as the returned address in eight hexadecimal digits and a colon,
    followed by every returned byte as [0x] and two digits, in order, with
    nothing between them, and a line feed.  The bytes printed are those the
    engine returned, however many were asked for. *)
Theorem cmd_read_dump (dev addr len : string) (ul : option string) (a n base : Z)
    (bytes : list Z) (rest : list reply) (w : world) :
  int16 addr = Some a ->
  int10 len = Some n ->
  script w = Returns (VTuple [VInt base; VList (map VInt bytes)]) :: rest ->
  cmd_read (EDB dev ul) addr len w
  = (Ret tt,
     set_stdout (stdout w +:+ "0x" +:+ fmt_x 8 base +:+ ":" +:+ hex_bytes bytes +:+ nl)
       (set_engine (calls w ++ [Call "mon.read_mem" [VInt a; VInt n]]) rest w)).
Proof.
  intros Ha Hn Hs. unfold cmd_read. rewrite Ha, Hn.
  unfold bind, orelse, ret, invoke, external. rewrite Hs. simpl.
  rewrite print_bytes_hex. simpl. unfold set_stdout, print, write. simpl.
  unfold set_stdout, nl. simpl. now rewrite !append_assoc.
Qed.

(** *** Resolution of keywords *)

Lemma prefix_refl (s : string) : String.prefix s s = true.
Proof.
  induction s as [|c s IH]; [reflexivity |].
  change (String.prefix (String c s) (String c s))
    with (if ascii_dec c c then String.prefix s s else false).
  now destruct (ascii_dec c c).
Qed.

Lemma candidates_In (part word : string) (words : list string) :
  In word (candidates part words) <-> In word words /\ startswith word part = true.
Proof. exact (List.filter_In (fun word => startswith word part) word words). Qed.

(** X18.  What [match_keyword] answers, for any list of words: a word of
    the list that [part] abbreviates, and then the only one; [None] when
    [part] abbreviates no word; the error "Ambiguous keyword" when it
    abbreviates two or more.  It never changes anything. *)
Theorem match_keyword_outcome (part : string) (words : list string) (w : world) :
  snd (match_keyword part words w) = w /\
  match fst (match_keyword part words w) with
  | Ret (Some word) =>
      In word words /\ startswith word part = true /\ candidates part words = [word]
  | Ret None => forall word, In word words -> startswith word part = false
  | Raise e =>
      e = Exception ("Ambiguous keyword: " +:+ part) /\
      (2 <= length (candidates part words))%nat
  | Diverge => False
  end.
Proof.
  rewrite match_keyword_candidates.
  destruct (candidates part words) as [|a [|b more]] eqn:Hc; simpl.
  - split; [reflexivity |]. intros word Hin.
    destruct (startswith word part) eqn:Hp; [| reflexivity].
    assert (Hx : In word (candidates part words)) by (now apply candidates_In).
    rewrite Hc in Hx. destruct Hx.
  - split; [reflexivity |].
    assert (Hx : In a (candidates part words)) by (rewrite Hc; now left).
    apply candidates_In in Hx as [Hin Hp]. now repeat split.
  - split; [reflexivity |]. split; [reflexivity | lia].
Qed.

Lemma filter_only (p : string -> bool) (x : string) (l : list string) :
  List.NoDup l -> In x l -> p x = true ->
  (forall y, In y l -> p y = true -> y = x) ->
  List.filter p l = [x].
Proof.
  induction l as [|a l IH]; intros Hnd Hin Hp Hu; [destruct Hin |].
  inversion Hnd as [|? ? Hna Hnd']; subst. simpl.
  assert (Hnone : forall l', (forall y, In y l' -> p y = true -> y = x) ->
                             ~ In x l' -> List.filter p l' = []).
  { intros l' Hu' Hn. induction l' as [|b l' IH']; [reflexivity |].
    simpl. destruct (p b) eqn:Hb.
    - exfalso. apply Hn. left. apply Hu'; [now left | exact Hb].
    - apply IH'; [intros y Hy; apply Hu'; now right | intros Hx; apply Hn; now right]. }
  destruct Hin as [-> | Hin].
  - rewrite Hp. f_equal. apply Hnone; [| exact Hna].
    intros y Hy. apply Hu. now right.
  - destruct (p a) eqn:Ha.
    + exfalso. assert (a = x) by (apply Hu; [now left | exact Ha]). now subst.
    + apply IH; auto. intros y Hy. apply Hu. now right.
Qed.

(** X19.  A keyword written out in full resolves to itself exactly when no
    other keyword of the table begins with it; a keyword that is the
    beginning of another one can never be selected. *)
Theorem match_keyword_exact (word : string) (words : list string) (w : world) :
  List.NoDup words ->
  In word words ->
  match_keyword word words w = (Ret (Some word), w)
  <-> (forall other, In other words -> startswith other word = true -> other = word).
Proof.
  intros Hnd Hin. rewrite match_keyword_candidates. split.
  - intros Hm other Ho Hp.
    assert (Hx : In other (candidates word words)) by (now apply candidates_In).
    destruct (candidates word words) as [|a [|b more]]; try discriminate.
    injection Hm as ->. now destruct Hx.
  - intros Hu. unfold candidates.
    now rewrite (filter_only (fun other => startswith other word) word words
                   Hnd Hin (prefix_refl word) Hu).
Qed.

(** *** The number of arguments *)

(** X20.  A command given too few or too many arguments is refused with a
    [TypeError] before anything happens: nothing is printed, parsed or sent
    to the engine. *)
Theorem wrong_argument_count (cmd_line cmd : string) (args : list string)
    (arity : nat * option nat) (w : world) :
  split cmd_line = cmd :: args ->
  In (cmd, arity) arities ->
  misfit (length args) arity ->
  dispatch cmd_line w = (Raise TypeError, w).
Proof.
  intros Hs Hin Hm. unfold dispatch. rewrite Hs. clear Hs. cbn [head tail].
  unfold arities in Hin.
  repeat (destruct Hin as [Hin | Hin];
          [injection Hin as <- <-;
           destruct args as [|a1 [|a2 [|a3 [|a4 [|a5 args]]]]];
           try (exfalso; unfold misfit in Hm; simpl in Hm; lia);
           vm_compute; reflexivity |]).
  destruct Hin.
Qed.

(** *** Halting and resuming *)

(** X21.  [int] followed by [cont], both answered with a voltage: the two
    voltages are printed, the two calls are made in this order, and
    [active_mode] is off at the end whatever it was at the start. *)
Theorem int_then_cont (dev : string) (ul : option string) (saved restored : F)
    (rest : list reply) (w : world) :
  script w = Returns (VFloat saved) :: Returns (VFloat restored) :: rest ->
  bind (cmd_int (EDB dev ul)) (fun _ => cmd_cont (EDB dev ul)) w
  = (Ret tt,
     set_active_mode false
       (set_stdout (stdout w +:+ "Vcap_saved = " +:+ float_fixed 4 saved +:+ nl
                    +:+ "Vcap_restored = " +:+ float_fixed 4 restored +:+ nl)
          (set_engine (calls w ++ [Call "mon.interrupt" []; Call "mon.exit_debug_mode" []])
             rest w))).
Proof.
  intros Hs. unfold cmd_int, cmd_cont, except_KeyboardInterrupt, bind, invoke, external.
  rewrite Hs. simpl. unfold set_active_mode, set_stdout, set_engine. simpl.
  now rewrite <- !app_assoc, !append_assoc.
Qed.

(** *** Attaching *)

(** X24.  [attach]: the device defaults to [/dev/ttyUSB0] and the log to
    none; the only call is the constructor [edb.EDB]; when it returns,
    [monitor] becomes the new handle (a handle already there is replaced
    and not destroyed); when it raises, the exception goes to the caller and
    [monitor] keeps its value. *)
Theorem attach_outcome (cmd_line : string) (args : list string) (w : world) :
  split cmd_line = "attach" :: args ->
  (length args <= 2)%nat ->
  let device := nth 0 args "/dev/ttyUSB0" in
  let uart_log_fname := nth_error args 1 in
  let called (rest : list reply) :=
    set_engine (calls w ++ [Call "edb.EDB" [VStr device; opt_str uart_log_fname]]) rest w in
  (forall v rest, script w = Returns v :: rest ->
     dispatch cmd_line w = (Ret tt, set_monitor (EDB device uart_log_fname) (called rest))) /\
  (forall e rest, script w = Raises e :: rest ->
     dispatch cmd_line w = (Raise e, called rest)).
Proof.
  intros Hs Hl. cbv zeta. unfold dispatch. rewrite Hs. cbn [head tail].
  rewrite bind_orelse_Some.
  change (globals !! ("cmd_" +:+ "attach")) with (globals !! "cmd_attach").
  replace (globals !! "cmd_attach")
    with (Some (Function (fun (mon : value) a =>
                  match a with
                  | [] => cmd_attach mon "/dev/ttyUSB0" None
                  | [device] => cmd_attach mon device None
                  | [device; uart_log_fname] => cmd_attach mon device (Some uart_log_fname)
                  | _ => raise TypeError
                  end))) by reflexivity.
  rewrite bind_orelse_Some. unfold bind at 1. cbv beta iota.
  destruct args as [|device [|log [|extra args]]]; [| | | simpl in Hl; lia];
    (split; [intros v rest Hr | intros e rest Hr]);
    unfold cmd_attach, bind, external; rewrite Hr; reflexivity.
Qed.

(** *** Showing the interrupt context *)

(** X25.  [intctx]: with a source that abbreviates exactly one interrupt
    source, the engine is asked for the context of that source, and a
    returned interrupt context is printed with the very line [wait] prints
    for it; nothing else changes, [active_mode] included.  A returned object
    that is no interrupt context raises [AttributeError] after the call. *)
Theorem cmd_intctx_shows (dev source keyword : string) (ul : option string)
    (context : value) (rest : list reply) (w : world) :
  candidates (upper source) INTERRUPT_SOURCE = [keyword] ->
  script w = Returns context :: rest ->
  let asked :=
    set_engine (calls w ++ [Call "mon.get_interrupt_context" [VStr keyword]]) rest w in
  match context with
  | InterruptContext type id saved_vcap =>
      cmd_intctx (EDB dev ul) source w
      = (Ret tt, emit (rendering (CONSOLE_FILE w) None (clock w) context) asked)
  | _ => cmd_intctx (EDB dev ul) source w = (Raise AttributeError, asked)
  end.
Proof.
  intros Hc Hs. cbv zeta. unfold cmd_intctx.
  assert (Hk : match_keyword (upper source) INTERRUPT_SOURCE w = (Ret (Some keyword), w))
    by (now rewrite match_keyword_candidates, Hc).
  destruct context;
    rewrite (bind_Ret _ _ _ _ _ Hk);
    rewrite (bind_Ret _ _ _ _ _ (invoke_Returns _ _ _ _ _ _ _ _ Hs));
    try reflexivity.
  now rewrite print_interrupt_context_text.
Qed.

End Properties.

(** ** The model at work *)

#[local] Existing Instance millionths.
#[local] Existing Instance header.

Example replay_scenario :
  cmd_wait ttyUSB0 None (attached [Returns watchpoint_3; Returns boot_line; Returns assert_42])
  = (Ret tt,
     World true ttyUSB0 Stdout
       ("Watchpoint: id: 3 time: 0.005000 s Vcap = 1.9800" +:+ nl
        +:+ "0.010: boot" +:+ nl
        +:+ "Interrupted: 'ASSERT'line: 42Vcap_saved = 2.1000" +:+ nl)
       ∅ 0 (repeat (Call "mon.wait" []) 3) []).
Proof. vm_compute. reflexivity. Qed.

Example unsampled_watchpoint_in_the_log :
  let run := cmd_wait ttyUSB0 (Some "wp.csv")
               (attached [Returns (WatchpointEvent 3 5000 None); Returns assert_42]) in
  fst run = Raise TypeError /\
  files (snd run) !! "wp.csv" = Some ("id,timestamp,vcap" +:+ nl) /\
  stdout (snd run) = "" /\
  active_mode (snd run) = false.
Proof. vm_compute. repeat split. Qed.

(** C2 as stated fails: a relayed string that is empty stops [cmd_wait] with
    [IndexError] before the interrupt context is read; [active_mode] stays
    off and the interrupt context is still in the script. *)
Lemma cmd_wait_empty_output :
  let run := cmd_wait ttyUSB0 None
               (attached [Returns (StdIOData 10000 ""); Returns assert_42]) in
  fst run = Raise IndexError /\
  active_mode (snd run) = false /\
  script (snd run) = [Returns assert_42].
Proof. vm_compute. repeat split. Qed.

Lemma cmd_wait_in_order_witness :
  let before := [watchpoint_3; boot_line; EnergyProfile 20000 (VList [VInt 1; VInt 2])] in
  let w := attached (map Returns before ++ [Returns assert_42; Returns watchpoint_3]) in
  let run := cmd_wait ttyUSB0 (Some "wp.csv") w in
  forallb passes before = true /\
  fst run = Ret tt /\
  active_mode (snd run) = true /\
  script (snd run) = [Returns watchpoint_3] /\
  stdout (snd run)
  = "Watchpoint: id: 3 time: 0.005000 s Vcap = 1.9800" +:+ nl
    +:+ "0.010: boot" +:+ nl
    +:+ "0.020: [1, 2]" +:+ nl
    +:+ "Interrupted: 'ASSERT'line: 42Vcap_saved = 2.1000" +:+ nl /\
  files (snd run) !! "wp.csv"
  = Some ("id,timestamp,vcap" +:+ nl +:+ "3,0.005000,1.9800" +:+ nl).
Proof.
  cbv zeta. split; [reflexivity |].
  destruct (cmd_wait_in_order "/dev/ttyUSB0" "ASSERT" None (Some "wp.csv")
              [watchpoint_3; boot_line; EnergyProfile 20000 (VList [VInt 1; VInt 2])]
              42 (Some 2100000) [Returns watchpoint_3]
              (attached (map Returns
                           [watchpoint_3; boot_line;
                            EnergyProfile 20000 (VList [VInt 1; VInt 2])]
                         ++ [Returns assert_42; Returns watchpoint_3]))
              eq_refl eq_refl) as (Hrun & _ & _).
  unfold ttyUSB0. rewrite Hrun. vm_compute. repeat split.
Defined.

Lemma cmd_int_cancelled_witness :
  let w := attached [Raises KeyboardInterrupt; Returns (VFloat 2100000)] in
  let w1 := set_engine [Call "mon.interrupt" []] [Returns (VFloat 2100000)] w in
  invoke None ttyUSB0 "interrupt" [] w = (Raise KeyboardInterrupt, w1) /\
  cmd_int ttyUSB0 w = (Ret tt, w1) /\
  active_mode w1 = active_mode w.
Proof.
  cbv zeta. split; [reflexivity |].
  apply (proj1 (cmd_int_cancelled ttyUSB0
                  (attached [Raises KeyboardInterrupt; Returns (VFloat 2100000)]))).
  reflexivity.
Defined.

Lemma do_stream_cancelled_witness :
  let r := Writes "t,vcap" (Writes nl (Raises KeyboardInterrupt)) in
  let run := do_stream ttyUSB0 "out.csv" "-" ["vcap"] false (attached [r]) in
  result r = Raises KeyboardInterrupt /\
  fst run = Ret tt /\
  active_mode (snd run) = false /\
  stdout (snd run) = "" /\
  files (snd run) = {["out.csv" := "t,vcap" +:+ nl]}.
Proof.
  cbv zeta. split; [reflexivity |].
  destruct (do_stream_cancelled "/dev/ttyUSB0" "out.csv" "-" None ["vcap"] false
              (Writes "t,vcap" (Writes nl (Raises KeyboardInterrupt))) []
              (attached [Writes "t,vcap" (Writes nl (Raises KeyboardInterrupt))])
              (or_introl eq_refl) eq_refl eq_refl) as (Hr & Ha & _ & Hfile).
  destruct Hfile as [Hout Hfiles]; [discriminate |].
  unfold ttyUSB0. repeat split; assumption.
Defined.

Lemma charger_methods_witness :
  let w := attached [Returns (VFloat 2398700)] in
  float_of_str "2.4" = Some 2400000 /\
  cmd_charge ttyUSB0 "2.4" "adc" w
  = (Ret tt, set_stdout ("Vcap = 2.3987" +:+ nl)
               (set_engine [Call "mon.charge" [VFloat 2400000]] [] w)) /\
  cmd_discharge ttyUSB0 "2.4" "cmp" w
  = (Ret tt, set_engine [Call "mon.discharge_cmp" [VFloat 2400000]] [] w) /\
  (exists e, cmd_charge ttyUSB0 "2.4" "dac" w = (Raise e, w)).
Proof.
  cbv zeta. split; [reflexivity |].
  destruct charger_methods as [Hcharge Hdischarge].
  destruct (Hcharge ttyUSB0 "2.4" "adc" (attached [Returns (VFloat 2398700)]))
    as (Hadc & _ & _).
  destruct (Hdischarge ttyUSB0 "2.4" "cmp" (attached [Returns (VFloat 2398700)]))
    as (_ & Hcmp & _).
  destruct (Hcharge ttyUSB0 "2.4" "dac" (attached [Returns (VFloat 2398700)]))
    as (_ & _ & Hother).
  split; [| split].
  - exact (Hadc 2400000 (VFloat 2398700) 2398700 _ eq_refl eq_refl eq_refl eq_refl).
  - exact (Hcmp 2400000 (VFloat 2398700) _ eq_refl eq_refl eq_refl).
  - destruct Hother as (e & He & _); [discriminate | discriminate |].
    now exists e.
Defined.

Lemma cmd_break_unknown_type_witness :
  let w := attached [Returns VNone] in
  candidates (upper "foo") BREAKPOINT_TYPE = [] /\
  int10 "0" = Some 0 /\
  cmd_break ttyUSB0 "foo" "0" "enable" None w
  = (Ret tt, set_engine [Call "mon.toggle_breakpoint" [VNone; VInt 0; VBool true; VNone]]
               [] w).
Proof.
  cbv zeta. split; [reflexivity |]. split; [reflexivity |].
  exact (proj2 (cmd_break_unknown_type "/dev/ttyUSB0" "foo" "0" "enable" None 0 VNone []
                  (attached [Returns VNone]) eq_refl eq_refl eq_refl)).
Defined.

Lemma print_interrupt_context_report_witness :
  let w := boot 0 [] in
  print_interrupt_context (InterruptContext "ASSERT" 42 (Some 2100000)) w
  = (Ret tt, set_stdout ("Interrupted: 'ASSERT'line: 42Vcap_saved = 2.1000" +:+ nl) w) /\
  print_interrupt_context (InterruptContext "BOOT" 0 None) w
  = (Ret tt, set_stdout ("Interrupted: 'BOOT'" +:+ nl) w) /\
  print_interrupt_context (InterruptContext "WDT" 7 None) w
  = (Ret tt, set_stdout ("Interrupted: 'WDT'id: 7" +:+ nl) w).
Proof.
  cbv zeta. split; [| split].
  - exact (proj1 (print_interrupt_context_report "ASSERT" 42 (Some 2100000) (boot 0 []))
             eq_refl).
  - exact (proj1 (proj2 (print_interrupt_context_report "BOOT" 0 None (boot 0 [])))
             eq_refl).
  - apply (proj2 (proj2 (print_interrupt_context_report "WDT" 7 None (boot 0 []))));
      discriminate.
Defined.

Lemma op_selects_enable_witness :
  let w := attached [Returns VNone] in
  let called (name : string) (args : list (value Z)) :=
    (Ret tt, set_engine [Call name args] [] w) in
  script w = [Returns VNone] /\
  cmd_uart ttyUSB0 "e" w = called "mon.enable_target_uart" [VBool true] /\
  cmd_payload ttyUSB0 "enabled" w = called "mon.enable_periodic_payload" [VBool false] /\
  cmd_watch ttyUSB0 "2" "" "vcap" w
  = called "mon.toggle_watchpoint" [VInt 2; VBool true; VBool true] /\
  cmd_break ttyUSB0 "en" "1" "disable" (Some "2.5") w
  = called "mon.toggle_breakpoint"
      [VStr "ENERGY_LEVEL"; VInt 1; VBool false; VFloat 2500000].
Proof.
  cbv zeta. split; [reflexivity |].
  split; [| split; [| split]].
  - exact (proj1 (proj2 (op_selects_enable "/dev/ttyUSB0" "e" None VNone []
                           (attached [Returns VNone]) eq_refl))).
  - exact (proj1 (proj2 (proj2 (op_selects_enable "/dev/ttyUSB0" "enabled" None VNone []
                                  (attached [Returns VNone]) eq_refl)))).
  - exact (proj1 (proj2 (proj2 (proj2 (op_selects_enable "/dev/ttyUSB0" "" None VNone []
                                         (attached [Returns VNone]) eq_refl))))
             "2" 2 "vcap" eq_refl).
  - exact (proj2 (proj2 (proj2 (proj2 (op_selects_enable "/dev/ttyUSB0" "disable" None
                                         VNone [] (attached [Returns VNone]) eq_refl))))
             "en" "1" 1 (Some "ENERGY_LEVEL") (Some "2.5") (VFloat 2500000)
             eq_refl eq_refl eq_refl).
Defined.

(** C9 as stated fails: Ctrl-C while the engine's [charge] is blocking
    raises [KeyboardInterrupt], which [except Exception] does not catch; the
    loop ends there, with no type or traceback printed, the next line never
    read, and neither at the end of the input nor under [--command]. *)
Lemma loop_dies_on_KeyboardInterrupt :
  let run := main (Arguments_ None None)
               [Line "attach"; Line "charge 2.4"; Line "echo hi"]
               (boot 0 [Returns VNone; Raises KeyboardInterrupt]) in
  fst run = Raise KeyboardInterrupt /\
  stdout (snd run) = "> > ".
Proof. vm_compute. split; reflexivity. Qed.

Lemma loop_survives_exceptions_witness :
  let w := boot 0 [] in
  skipped (strip "charge abc;echo no") = false /\
  dispatch_all (split_on ";" (strip "charge abc;echo no"))
    (snd (print_noend (compose_prompt (active_mode w)) w))
  = (Raise ValueError, set_stdout "> " w) /\
  interactive [Line "charge abc;echo no"; Line "echo ok"] w
  = (Ret EndOfInput,
     set_stdout ("> <class 'ValueError'>" +:+ nl
                 +:+ "Traceback (most recent call last):" +:+ nl +:+ "ValueError" +:+ nl +:+ nl
                 +:+ "> ok" +:+ nl +:+ "> " +:+ nl) w).
Proof.
  cbv zeta. split; [reflexivity |].
  assert (Hd : dispatch_all (split_on ";" (strip "charge abc;echo no"))
                 (snd (print_noend (compose_prompt (active_mode (boot 0 []))) (boot 0 [])))
               = (Raise ValueError, set_stdout "> " (boot 0 [])))
    by (vm_compute; reflexivity).
  split; [exact Hd |].
  assert (Hloop := proj1 loop_survives_exceptions "charge abc;echo no" [Line "echo ok"]
                     ValueError (boot 0 []) (set_stdout "> " (boot 0 [])) eq_refl Hd).
  simpl is_Exception in Hloop. cbv iota in Hloop. rewrite Hloop.
  vm_compute. reflexivity.
Defined.

Lemma stdio_line_witness :
  let w := attached [Returns (StdIOData 10000 "boot")] in
  let w1 := set_engine [Call "mon.wait" []] [] w in
  invoke None ttyUSB0 "wait" [] w = (Ret (StdIOData 10000 "boot"), w1) /\
  exists text w2,
    wait_step ttyUSB0 None 4000 w = (Ret false, w2) /\
    content (CONSOLE_FILE w) w2 = content (CONSOLE_FILE w) w +:+ text /\
    text = "0.006: " +:+ "boot" +:+ nl /\
    last_char text = Some newline.
Proof.
  cbv zeta. split; [reflexivity |].
  destruct (stdio_line ttyUSB0 None 4000 10000 "boot"
              (attached [Returns (StdIOData 10000 "boot")])
              (set_engine [Call "mon.wait" []] []
                 (attached [Returns (StdIOData 10000 "boot")]))
              eq_refl) as [_ Hline].
  destruct Hline as (text & w2 & Hstep & Hcontent & Htext & Hlast); [discriminate |].
  exists text, w2. repeat split; assumption.
Defined.

Lemma execute_keeps_monitor_witness :
  let w := attached [Returns VNone; Returns (VInt 4096)] in
  ~ In "attach" (command_words "detach;pc") /\
  monitor (snd (execute "detach;pc" w)) = ttyUSB0.
Proof.
  cbv zeta.
  assert (Hn : ~ In "attach" (command_words "detach;pc"))
    by (vm_compute; intros [E | [E | []]]; discriminate E).
  split; [exact Hn |].
  exact (execute_keeps_monitor "detach;pc"
           (attached [Returns VNone; Returns (VInt 4096)]) Hn).
Defined.

Lemma execute_keeps_active_mode_witness :
  let w := set_active_mode true (attached [Returns (VFloat 2400000); Returns (VInt 4096)]) in
  (forall cmd, In cmd (command_words "charge 2.4;pc") ->
               ~ In cmd ["int"; "cont"; "ebreak"; "wait"]) /\
  active_mode (snd (execute "charge 2.4;pc" w)) = true.
Proof.
  cbv zeta.
  assert (Hn : forall cmd, In cmd (command_words "charge 2.4;pc") ->
                           ~ In cmd ["int"; "cont"; "ebreak"; "wait"]).
  { intros cmd Hin. vm_compute in Hin.
    destruct Hin as [<- | [<- | []]]; intros [E | [E | [E | [E | []]]]]; discriminate E. }
  split; [exact Hn |].
  exact (execute_keeps_active_mode "charge 2.4;pc"
           (set_active_mode true (attached [Returns (VFloat 2400000); Returns (VInt 4096)]))
           Hn).
Defined.


Lemma prompt_skips_witness :
  let w := boot 0 [] in
  blank_or_comment "   # power on" /\
  interactive [Line "   # power on"; Line "echo ok"] w
  = interactive [Line "echo ok"] (set_stdout "> " w).
Proof.
  cbv zeta.
  assert (Hb : blank_or_comment "   # power on")
    by (right; exists " power on"; reflexivity).
  split; [exact Hb |].
  exact (proj1 (prompt_skips "   # power on" [Line "echo ok"] (boot 0 [])) Hb).
Defined.


Lemma semicolon_sequence_witness :
  let w := boot 0 [] in
  contains ";" "pc" = false /\
  dispatch "pc" w = (Raise AttributeError, w) /\
  execute ("pc" +:+ ";" +:+ "echo never") w
  = (Ret tt, set_stdout ("<class 'AttributeError'>" +:+ nl
                         +:+ "Traceback (most recent call last):" +:+ nl
                         +:+ "AttributeError" +:+ nl +:+ nl) w).
Proof.
  cbv zeta.
  assert (Hd : dispatch "pc" (boot 0 []) = (Raise AttributeError, boot 0 []))
    by (vm_compute; reflexivity).
  split; [reflexivity |]. split; [exact Hd |].
  rewrite (proj2 (semicolon_sequence "pc" "echo never" (boot 0 []) (boot 0 []) eq_refl)
             AttributeError Hd eq_refl).
  vm_compute. reflexivity.
Defined.

Lemma dispatch_errors_witness :
  let w := boot 0 [] in
  dispatch "  " w = (Raise IndexError, w) /\
  dispatch "halt now" w = (Raise KeyError, w) /\
  dispatch "hist_file" w = (Raise TypeError, w).
Proof.
  cbv zeta. destruct (dispatch_errors "  " (boot 0 [])) as (Hi & _ & _).
  destruct (dispatch_errors "halt now" (boot 0 [])) as (_ & Hk & _).
  destruct (dispatch_errors "hist_file" (boot 0 [])) as (_ & _ & Ht).
  split; [exact (Hi eq_refl) |]. split.
  - apply (Hk "halt" ["now"] eq_refl).
    + vm_compute. intuition discriminate.
    + vm_compute. intuition discriminate.
  - apply (Ht "hist_file" [] eq_refl). now left.
Defined.

Lemma cmd_wait_raised_witness :
  let w := attached [Returns watchpoint_3; Raises KeyboardInterrupt; Returns assert_42] in
  let run := cmd_wait ttyUSB0 None w in
  forallb passes [watchpoint_3] = true /\
  fst run = Ret tt /\ script (snd run) = [Returns assert_42] /\
  active_mode (snd run) = false.
Proof.
  cbv zeta. split; [reflexivity |].
  destruct (cmd_wait_raised "/dev/ttyUSB0" None None [watchpoint_3] KeyboardInterrupt
              [Returns assert_42]
              (attached [Returns watchpoint_3; Raises KeyboardInterrupt; Returns assert_42])
              eq_refl eq_refl) as [Hrun Hmode].
  unfold ttyUSB0. rewrite Hrun. split; [reflexivity |]. split; [reflexivity |].
  exact Hmode.
Defined.

Lemma cmd_wait_starved_witness :
  let w := attached [Returns watchpoint_3; Returns boot_line] in
  forallb passes [watchpoint_3; boot_line] = true /\
  fst (cmd_wait ttyUSB0 None w) = Diverge /\
  length (calls (snd (cmd_wait ttyUSB0 None w))) = 3%nat.
Proof.
  cbv zeta. split; [reflexivity |]. unfold ttyUSB0.
  rewrite (cmd_wait_starved "/dev/ttyUSB0" None None [watchpoint_3; boot_line]
             (attached [Returns watchpoint_3; Returns boot_line]) eq_refl eq_refl).
  split; reflexivity.
Defined.

Lemma watchpoint_log_rows_witness :
  let w := attached [Returns watchpoint_3; Returns boot_line; Returns assert_42] in
  CONSOLE_FILE w <> File "wp.csv" /\
  forallb passes [watchpoint_3; boot_line] = true /\
  content (File "wp.csv") (snd (cmd_wait ttyUSB0 (Some "wp.csv") w))
  = "id,timestamp,vcap" +:+ nl +:+ "3,0.005000,1.9800" +:+ nl.
Proof.
  cbv zeta.
  assert (Hc : CONSOLE_FILE (attached [Returns watchpoint_3; Returns boot_line;
                                       Returns assert_42]) <> File "wp.csv")
    by discriminate.
  split; [exact Hc |]. split; [reflexivity |]. unfold ttyUSB0.
  rewrite (watchpoint_log_rows "/dev/ttyUSB0" "ASSERT" "wp.csv" None
             [watchpoint_3; boot_line] 42 (Some 2100000) []
             (attached [Returns watchpoint_3; Returns boot_line; Returns assert_42])
             Hc eq_refl eq_refl).
  vm_compute. reflexivity.
Defined.


Lemma do_stream_engine_error_witness :
  let r := Writes ("0.1,2.0" +:+ nl) (Raises OSError) in
  let w := attached [r] in
  let run := do_stream ttyUSB0 "out.csv" "-" ["vcap"] false w in
  "out.csv" <> "-" /\ result r = Raises OSError /\ OSError <> KeyboardInterrupt /\
  fst run = Raise OSError /\
  files (snd run) !! "out.csv" = Some ("0.1,2.0" +:+ nl) /\
  stdout (snd run) = "" /\ active_mode (snd run) = false.
Proof.
  cbv zeta.
  assert (Ho : "out.csv" <> "-") by discriminate.
  assert (He : OSError <> KeyboardInterrupt) by discriminate.
  split; [exact Ho |]. split; [reflexivity |]. split; [exact He |].
  destruct (do_stream_engine_error "/dev/ttyUSB0" "out.csv" "-" None ["vcap"] false
              (Writes ("0.1,2.0" +:+ nl) (Raises OSError)) OSError []
              (attached [Writes ("0.1,2.0" +:+ nl) (Raises OSError)])
              (or_introl eq_refl) Ho eq_refl eq_refl He) as (Hr & Hf & Hs & Hm).
  unfold ttyUSB0. split; [exact Hr |]. split; [| split; [exact Hs | exact Hm]].
  rewrite Hf. apply lookup_insert_eq.
Defined.

Lemma cmd_cont_outcome_witness :
  let w := set_active_mode true (attached [Raises OSError]) in
  let w1 := set_engine [Call "mon.exit_debug_mode" []] [] w in
  invoke None ttyUSB0 "exit_debug_mode" [] w = (Raise OSError, w1) /\
  cmd_cont ttyUSB0 w = (Raise OSError, w1) /\ active_mode w1 = true.
Proof.
  cbv zeta.
  assert (Hi : invoke None ttyUSB0 "exit_debug_mode" []
                 (set_active_mode true (attached [Raises OSError]))
               = (Raise OSError,
                  set_engine [Call "mon.exit_debug_mode" []] []
                    (set_active_mode true (attached [Raises OSError]))))
    by reflexivity.
  split; [exact Hi |].
  exact (proj1 (proj2 (cmd_cont_outcome ttyUSB0
                         (set_active_mode true (attached [Raises OSError]))))
           OSError _ Hi).
Defined.

Lemma cmd_ebreak_outcome_witness :
  let w := attached [Returns (VFloat 2000000)] in
  float_of_str "low" = None /\
  cmd_ebreak ttyUSB0 "low" "adc" w = (Raise ValueError, w).
Proof.
  cbv zeta. split; [reflexivity |].
  exact (proj1 (cmd_ebreak_outcome ttyUSB0 "low" "adc"
                  (attached [Returns (VFloat 2000000)])) eq_refl).
Defined.

Lemma watch_snapshot_witness :
  let w := attached [Returns VNone] in
  int10 "3" = Some 3 /\
  dispatch "watch 3 en" w
  = (Ret tt, set_engine [Call "mon.toggle_watchpoint" [VInt 3; VBool true; VBool false]]
               [] w).
Proof.
  cbv zeta. split; [reflexivity |].
  exact (proj2 (watch_snapshot "/dev/ttyUSB0" "3" "en" None 3 VNone []
                  (attached [Returns VNone]) eq_refl eq_refl eq_refl)
           "watch 3 en" eq_refl).
Defined.

Lemma cmd_read_dump_witness :
  let w := attached [Returns (VTuple [VInt 17408; VList (map VInt [1; 255])])] in
  int16 "0x4400" = Some 17408 /\ int10 "2" = Some 2 /\
  stdout (snd (cmd_read ttyUSB0 "0x4400" "2" w)) = "0x00004400:0x010xff" +:+ nl.
Proof.
  cbv zeta. split; [reflexivity |]. split; [reflexivity |]. unfold ttyUSB0.
  rewrite (cmd_read_dump "/dev/ttyUSB0" "0x4400" "2" None 17408 2 17408 [1; 255] []
             (attached [Returns (VTuple [VInt 17408; VList (map VInt [1; 255])])])
             eq_refl eq_refl eq_refl).
  vm_compute. reflexivity.
Defined.

Lemma match_keyword_exact_witness :
  let w := boot 0 [] in
  List.NoDup ["PASSIVE"; "PASSIVE_ENERGY"] /\
  In "PASSIVE" ["PASSIVE"; "PASSIVE_ENERGY"] /\
  match_keyword "PASSIVE" ["PASSIVE"; "PASSIVE_ENERGY"] w <> (Ret (Some "PASSIVE"), w).
Proof.
  cbv zeta.
  assert (Hn : List.NoDup ["PASSIVE"; "PASSIVE_ENERGY"]).
  { constructor; [intros [E | []]; discriminate E |].
    constructor; [intros [] | constructor]. }
  assert (Hi : In "PASSIVE" ["PASSIVE"; "PASSIVE_ENERGY"]) by now left.
  split; [exact Hn |]. split; [exact Hi |]. intros Hm.
  pose proof (proj1 (match_keyword_exact "PASSIVE" ["PASSIVE"; "PASSIVE_ENERGY"]
                       (boot 0 []) Hn Hi) Hm "PASSIVE_ENERGY"
                (or_intror (or_introl eq_refl)) eq_refl) as E.
  discriminate E.
Defined.

Lemma wrong_argument_count_witness :
  let w := attached [Returns (VFloat 2000000)] in
  split "int now" = ["int"; "now"] /\
  In ("int", (0%nat, Some 0%nat)) arities /\
  misfit (length ["now"]) (0%nat, Some 0%nat) /\
  dispatch "int now" w = (Raise TypeError, w).
Proof.
  cbv zeta.
  assert (Hi : In ("int", (0%nat, Some 0%nat)) arities)
    by (unfold arities; repeat (first [left; reflexivity | right])).
  assert (Hm : misfit (length ["now"]) (0%nat, Some 0%nat))
    by (unfold misfit; simpl; lia).
  split; [reflexivity |]. split; [exact Hi |]. split; [exact Hm |].
  exact (wrong_argument_count "int now" "int" ["now"] (0%nat, Some 0%nat)
           (attached [Returns (VFloat 2000000)]) eq_refl Hi Hm).
Defined.

Lemma int_then_cont_witness :
  let w := attached [Returns (VFloat 2100000); Returns (VFloat 2050000)] in
  let run := bind (cmd_int ttyUSB0) (fun _ => cmd_cont ttyUSB0) w in
  script w = [Returns (VFloat 2100000); Returns (VFloat 2050000)] /\
  active_mode (snd run) = false /\
  stdout (snd run) = "Vcap_saved = 2.1000" +:+ nl +:+ "Vcap_restored = 2.0500" +:+ nl.
Proof.
  cbv zeta. split; [reflexivity |]. unfold ttyUSB0.
  rewrite (int_then_cont "/dev/ttyUSB0" None 2100000 2050000 []
             (attached [Returns (VFloat 2100000); Returns (VFloat 2050000)]) eq_refl).
  split; [reflexivity | vm_compute; reflexivity].
Defined.

Lemma cmd_break_resolved_witness :
  let w := attached [Returns VNone] in
  candidates (upper "en") BREAKPOINT_TYPE = ["ENERGY_LEVEL"] /\
  int10 "0" = Some 0 /\
  cmd_break ttyUSB0 "en" "0" "e" None w
  = (Ret tt, set_engine [Call "mon.toggle_breakpoint"
                           [VStr "ENERGY_LEVEL"; VInt 0; VBool true; VNone]] [] w).
Proof.
  cbv zeta. split; [reflexivity |]. split; [reflexivity |].
  exact (proj2 (cmd_break_resolved "/dev/ttyUSB0" "en" "0" "e" "ENERGY_LEVEL" None 0
                  VNone [] (attached [Returns VNone]) eq_refl eq_refl eq_refl)).
Defined.

Lemma cmd_break_ambiguous_witness :
  let w := attached [Returns VNone] in
  candidates (upper "") BREAKPOINT_TYPE = ["CODE"; "ENERGY_LEVEL"] /\
  exists e, cmd_break ttyUSB0 "" "0" "e" None w = (Raise e, w).
Proof.
  cbv zeta. split; [reflexivity |].
  exact (cmd_break_ambiguous ttyUSB0 "" "0" "e" "CODE" "ENERGY_LEVEL" [] None
           (attached [Returns VNone]) eq_refl).
Defined.

Lemma attach_outcome_witness :
  let w := boot 0 [Returns VNone] in
  split "attach /dev/ttyACM0" = ["attach"; "/dev/ttyACM0"] /\
  (length ["/dev/ttyACM0"] <= 2)%nat /\
  dispatch "attach /dev/ttyACM0" w
  = (Ret tt, set_monitor (EDB "/dev/ttyACM0" None)
               (set_engine [Call "edb.EDB" [VStr "/dev/ttyACM0"; VNone]] [] w)).
Proof.
  cbv zeta.
  assert (Hl : (length ["/dev/ttyACM0"] <= 2)%nat) by (simpl; lia).
  split; [reflexivity |]. split; [exact Hl |].
  exact (proj1 (attach_outcome "attach /dev/ttyACM0" ["/dev/ttyACM0"]
                  (boot 0 [Returns VNone]) eq_refl Hl) VNone [] eq_refl).
Defined.

Lemma cmd_intctx_shows_witness :
  let w := attached [Returns assert_42] in
  candidates (upper "deb") INTERRUPT_SOURCE = ["DEBUGGER"] /\
  stdout (snd (cmd_intctx ttyUSB0 "deb" w))
  = "Interrupted: 'ASSERT'line: 42Vcap_saved = 2.1000" +:+ nl.
Proof.
  cbv zeta.
  assert (Hc : candidates (upper "deb") INTERRUPT_SOURCE = ["DEBUGGER"]) by reflexivity.
  split; [exact Hc |]. unfold ttyUSB0.
  rewrite (cmd_intctx_shows "/dev/ttyUSB0" "deb" "DEBUGGER" None assert_42 []
             (attached [Returns assert_42]) Hc eq_refl).
  vm_compute. reflexivity.
Defined.
